(** * ResumeMatch AI: the resume extraction and match analysis pipeline

    A shallow embedding of [src/lib/resumeParser.ts], [src/lib/groq.ts],
    [src/lib/openai.ts] (which holds the OpenAI and the Gemini variant of
    [analyzeResume]) and of the two route handlers, followed by the
    properties the specification states about them.

    Conventions of the embedding.
    - A JavaScript string is a Rocq [string]; one character stands for one
      UTF-16 code unit, and the embedding covers the code units below 256
      (Latin-1).  [trim] and [toLowerCase] are exact on that range.
    - A number decoded from JSON is the double nearest to its literal,
      kept as the rational it equals, or an infinity ([JSON.num_value]).
    - A thrown value is data ([Thrown]); a [try]/[catch] is a function from
      the completion of the body to the completion of the statement.
    - The language-model provider is a function from the submitted request
      to what the SDK call does (returns a completion or throws); every
      stage returns, next to its completion, the list of requests it
      submitted. *)

From Stdlib Require Import String Ascii List ZArith QArith Bool Lia DecimalString.
From stdpp Require Import base option gmap strings.
Import ListNotations.

#[local] Set Warnings "-register-all".

(** ** JavaScript strings *)

Module JS.

(** The double quote, as a one-character string. *)
Definition dquote : string := String (ascii_of_nat 34) EmptyString.

(** Line feed, as a one-character string (the [\n] of the source). *)
Definition LF : string := String (ascii_of_nat 10) EmptyString.

(** [WhiteSpace] and [LineTerminator] code units below 256: TAB, LF, VT,
    FF, CR, SP and NBSP.  These are what [String.prototype.trim]
    removes. *)
Definition is_whitespace (c : ascii) : bool :=
  let n := nat_of_ascii c in
  (Nat.leb 9 n && Nat.leb n 13) || Nat.eqb n 32 || Nat.eqb n 160.

Fixpoint trimStart (s : string) : string :=
  match s with
  | EmptyString => EmptyString
  | String c s' => if is_whitespace c then trimStart s' else s
  end.

Fixpoint trimEnd (s : string) : string :=
  match s with
  | EmptyString => EmptyString
  | String c s' =>
      match trimEnd s' with
      | EmptyString => if is_whitespace c then EmptyString else String c EmptyString
      | r => String c r
      end
  end.

Definition trim (s : string) : string := trimEnd (trimStart s).

(** [s.startsWith(p)] *)
Definition startsWith (s p : string) : bool := String.prefix p s.

(** [s.includes(p)] *)
Fixpoint includes (s p : string) : bool :=
  String.prefix p s ||
  match s with
  | EmptyString => false
  | String _ s' => includes s' p
  end.

(** [toLowerCase] on one code unit below 256: A-Z, and the Latin-1
    capitals U+00C0..U+00DE except the multiplication sign U+00D7. *)
Definition lower_ascii (c : ascii) : ascii :=
  let n := nat_of_ascii c in
  if (Nat.leb 65 n && Nat.leb n 90)
     || (Nat.leb 192 n && Nat.leb n 222 && negb (Nat.eqb n 215))
  then ascii_of_nat (n + 32) else c.

Fixpoint toLowerCase (s : string) : string :=
  match s with
  | EmptyString => EmptyString
  | String c s' => String (lower_ascii c) (toLowerCase s')
  end.

(** [xs.join(sep)] on an array of strings. *)
Fixpoint join (xs : list string) (sep : string) : string :=
  match xs with
  | [] => EmptyString
  | [x] => x
  | x :: rest => x +:+ sep +:+ join rest sep
  end.

(** Truthiness of a string value: the empty string is falsy. *)
Definition truthy (s : string) : bool :=
  match s with EmptyString => false | _ => true end.

(** [s.length] *)
Definition length (s : string) : nat := String.length s.

(** [xs || d] for an array [xs]: an array, even an empty one, is truthy. *)
Definition array_or {A : Type} (xs d : list A) : list A := xs.

(** [s || d] for a string [s]. *)
Definition string_or (s d : string) : string := if truthy s then s else d.

End JS.

(** ** The data model ([ParsedResume], [AnalysisResult]) *)

(** [z.infer<typeof ParsedResumeSchema>] of [resumeParser.ts]. *)
Record ParsedResume := mkParsedResume {
  skills : list string;
  experience : list string;
  education : list string;
  contact : string
}.

(** ** The formatter: [formatResumeForAnalysis] *)

(** The three [if (... .length > 0) sections.push(...)] statements, each as
    the list of elements it appends to [sections]. *)
Definition skills_section (r : ParsedResume) : list string :=
  if Nat.ltb 0 (List.length (skills r))
  then ["Skills: " +:+ JS.join (skills r) ", "] else [].

Definition experience_section (r : ParsedResume) : list string :=
  if Nat.ltb 0 (List.length (experience r))
  then ["Experience:" +:+ JS.LF +:+ JS.join (experience r) JS.LF] else [].

Definition education_section (r : ParsedResume) : list string :=
  if Nat.ltb 0 (List.length (education r))
  then ["Education:" +:+ JS.LF +:+ JS.join (education r) JS.LF] else [].

Definition formatResumeForAnalysis (parsedResume : ParsedResume) : string :=
  let sections := [] in
  let sections := sections ++ skills_section parsedResume in
  let sections := sections ++ experience_section parsedResume in
  let sections := sections ++ education_section parsedResume in
  JS.join sections (JS.LF +:+ JS.LF).

(** ** Decoded JSON values and [JSON.parse] *)

(** What [JSON.parse] returns (the [parsed: unknown] of the source).  A
    number is the IEEE 754 double the runtime keeps: [JNum q] is the finite
    double equal to the rational [q] (in lowest terms; the sign of a zero
    is not kept: [-0] passes the tests of the program as [0] does, and is
    written as [0] in a response), [JInfinity] is the infinity a literal
    too large for a double becomes.  An object
    keeps its members in source order; a property read takes the last
    member of that name, as [JSON.parse] does for a repeated key. *)
Inductive json : Type :=
| JNull
| JBool (b : bool)
| JNum (q : Q)
| JStr (s : string)
| JArr (items : list json)
| JObj (members : list (string * json))
| JInfinity (negative : bool).

(** [obj[k]]: [None] is [undefined]. *)
Fixpoint obj_get (k : string) (members : list (string * json)) : option json :=
  match members with
  | [] => None
  | (k', v) :: rest =>
      match obj_get k rest with
      | Some v' => Some v'
      | None => if String.eqb k k' then Some v else None
      end
  end.

(** [JSON.parse] of the runtime, as a one-pass recogniser of the JSON
    grammar (ECMA-404): it reads the text one code unit at a time and keeps
    the containers under construction on a stack.  [None] stands for the
    [SyntaxError] the runtime throws.  A [\u] escape above U+00FF is
    outside the strings the embedding covers and is refused. *)
Module JSON.

Inductive frame : Type :=
| FArr (acc : list json)
| FObj (acc : list (string * json)) (pending : option string).

Inductive num_phase : Type :=
| NSign | NZero | NInt | NDot | NFrac | NExp | NExpSign | NExpDigits.

Record num_acc := mkNum {
  neg : bool; mant : N; scale : nat; eneg : bool; eabs : N
}.

Inductive str_phase : Type :=
| SPlain | SEscape | SHex (k : nat) (acc : N).

Inductive literal : Type := LTrue | LFalse | LNull.

Definition literal_text (l : literal) : string :=
  match l with
  | LTrue => "true"
  | LFalse => "false"
  | LNull => "null"
  end.

Definition literal_value (l : literal) : json :=
  match l with
  | LTrue => JBool true
  | LFalse => JBool false
  | LNull => JNull
  end.

Inductive mode : Type :=
| MValue (first : bool)
| MKey (first : bool)
| MColon
| MAfter
| MDone (v : json)
| MString (is_key : bool) (racc : list ascii) (ph : str_phase)
| MNumber (ph : num_phase) (a : num_acc)
| MLiteral (l : literal) (seen : nat).

Definition state : Type := list frame * mode.

Definition init : state := ([], MValue false).

(** [c] is the character of code [n].  The codes used below: 34 the
    double quote, 43 [+], 44 [,], 45 [-], 46 [.], 47 [/], 58 [:], 69 [E],
    91 and 93 the square brackets, 92 the backslash, 123 and 125 the
    braces, and the lower-case letters 98 [b], 101 [e], 102 [f], 110 [n],
    114 [r], 116 [t], 117 [u]. *)
Definition at_code (c : ascii) (n : nat) : bool := Nat.eqb (nat_of_ascii c) n.

(** JSON white space: TAB, LF, CR, SP. *)
Definition is_ws (c : ascii) : bool :=
  at_code c 9 || at_code c 10 || at_code c 13 || at_code c 32.

Definition digit_of (c : ascii) : option N :=
  let n := nat_of_ascii c in
  if Nat.leb 48 n && Nat.leb n 57 then Some (N.of_nat (n - 48)) else None.

Definition hex_of (c : ascii) : option N :=
  let n := nat_of_ascii c in
  if Nat.leb 48 n && Nat.leb n 57 then Some (N.of_nat (n - 48))
  else if Nat.leb 65 n && Nat.leb n 70 then Some (N.of_nat (n - 55))
  else if Nat.leb 97 n && Nat.leb n 102 then Some (N.of_nat (n - 87))
  else None.

(** The character a one-letter escape denotes. *)
Definition unescape (c : ascii) : option ascii :=
  if at_code c 34 || at_code c 92 || at_code c 47 then Some c
  else if at_code c 98 then Some (ascii_of_nat 8)
  else if at_code c 102 then Some (ascii_of_nat 12)
  else if at_code c 110 then Some (ascii_of_nat 10)
  else if at_code c 114 then Some (ascii_of_nat 13)
  else if at_code c 116 then Some (ascii_of_nat 9)
  else None.

(** [2 ^ s <= n / d], for [n] and [d] positive. *)
Definition at_least_pow2 (n d s : Z) : bool :=
  (if 0 <=? s then d * 2 ^ s <=? n else d <=? n * 2 ^ (- s))%Z.

(** The double nearest to [n / d] ([0 <= n], [0 < d]), ties to the even
    significand, as the runtime converts a numeric literal: a significand
    of 53 bits, the least exponent [-1074] of the subnormal numbers, and
    [None], the infinity, from [2 ^ 1024] on. *)
Definition binary64_of (n d : Z) : option Q :=
  (if n =? 0 then Some 0%Q
   else
     let a := Z.log2 n - Z.log2 d in
     let l := if at_least_pow2 n d a then a else a - 1 in
     let k := Z.max (l - 52) (-1074) in
     let num := if 0 <=? k then n else n * 2 ^ (- k) in
     let den := if 0 <=? k then d * 2 ^ k else d in
     let q := num / den in
     let r := num mod den in
     let q := if (den <? 2 * r) || ((den =? 2 * r) && Z.odd q)
              then q + 1 else q in
     if (0 <=? k) && (2 ^ 1024 <=? q * 2 ^ k) then None
     else Some (Qred (if 0 <=? k then inject_Z (q * 2 ^ k)
                      else Qmake q (Z.to_pos (2 ^ (- k))))))%Z.

(** The value of a numeric literal of mantissa [mant], [scale] digits after
    the point and exponent [eabs]: the double nearest to
    [mant * 10 ^ (e - scale)], with its sign. *)
Definition num_value (a : num_acc) : json :=
  let e := ((if eneg a then - Z.of_N (eabs a) else Z.of_N (eabs a))
            - Z.of_nat (scale a))%Z in
  let n := (if 0 <=? e then Z.of_N (mant a) * 10 ^ e else Z.of_N (mant a))%Z in
  let d := (if 0 <=? e then 1 else 10 ^ (- e))%Z in
  match binary64_of n d with
  | Some q => JNum (if neg a then Qopp q else q)
  | None => JInfinity (neg a)
  end.

Definition num_accepting (ph : num_phase) : bool :=
  match ph with
  | NZero | NInt | NFrac | NExpDigits => true
  | _ => false
  end.

(** A finished value goes to the container on top of the stack, or is
    the result when the stack is empty. *)
Definition push_value (v : json) (stack : list frame) : option state :=
  match stack with
  | [] => Some ([], MDone v)
  | FArr acc :: rest => Some (FArr (v :: acc) :: rest, MAfter)
  | FObj acc (Some k) :: rest => Some (FObj ((k, v) :: acc) None :: rest, MAfter)
  | FObj _ None :: _ => None
  end.

Definition step_after (stack : list frame) (c : ascii) : option state :=
  if is_ws c then Some (stack, MAfter)
  else match stack with
       | FArr acc :: rest =>
           if at_code c 44 then Some (stack, MValue false)
           else if at_code c 93 then push_value (JArr (rev acc)) rest
           else None
       | FObj acc None :: rest =>
           if at_code c 44 then Some (stack, MKey false)
           else if at_code c 125 then push_value (JObj (rev acc)) rest
           else None
       | _ => None
       end.

Definition step_done (stack : list frame) (v : json) (c : ascii)
  : option state :=
  if is_ws c then Some (stack, MDone v) else None.

Definition step_settled (s : state) (c : ascii) : option state :=
  match s with
  | (stack, MAfter) => step_after stack c
  | (stack, MDone v) => step_done stack v c
  | _ => None
  end.

Definition step_value (stack : list frame) (first : bool) (c : ascii)
  : option state :=
  if is_ws c then Some (stack, MValue first)
  else if at_code c 123 then Some (FObj [] None :: stack, MKey true)
  else if at_code c 91 then Some (FArr [] :: stack, MValue true)
  else if at_code c 93 then
    (if first then
       match stack with
       | FArr acc :: rest => push_value (JArr (rev acc)) rest
       | _ => None
       end
     else None)
  else if at_code c 34 then Some (stack, MString false [] SPlain)
  else if at_code c 45 then Some (stack, MNumber NSign (mkNum true 0 0 false 0))
  else match digit_of c with
       | Some d =>
           Some (stack, MNumber (if N.eqb d 0 then NZero else NInt)
                                (mkNum false d 0 false 0))
       | None =>
           if at_code c 116 then Some (stack, MLiteral LTrue 1)
           else if at_code c 102 then Some (stack, MLiteral LFalse 1)
           else if at_code c 110 then Some (stack, MLiteral LNull 1)
           else None
       end.

Definition step_key (stack : list frame) (first : bool) (c : ascii)
  : option state :=
  if is_ws c then Some (stack, MKey first)
  else if at_code c 34 then Some (stack, MString true [] SPlain)
  else if at_code c 125 then
    (if first then
       match stack with
       | FObj acc None :: rest => push_value (JObj (rev acc)) rest
       | _ => None
       end
     else None)
  else None.

Definition step_colon (stack : list frame) (c : ascii) : option state :=
  if is_ws c then Some (stack, MColon)
  else if at_code c 58 then Some (stack, MValue false)
  else None.

Definition close_string (stack : list frame) (is_key : bool)
    (racc : list ascii) : option state :=
  let s := string_of_list_ascii (rev racc) in
  if is_key then
    match stack with
    | FObj acc None :: rest => Some (FObj acc (Some s) :: rest, MColon)
    | _ => None
    end
  else push_value (JStr s) stack.

Definition step_string (stack : list frame) (is_key : bool)
    (racc : list ascii) (ph : str_phase) (c : ascii) : option state :=
  match ph with
  | SPlain =>
      if at_code c 34 then close_string stack is_key racc
      else if at_code c 92 then Some (stack, MString is_key racc SEscape)
      else if Nat.ltb (nat_of_ascii c) 32 then None
      else Some (stack, MString is_key (c :: racc) SPlain)
  | SEscape =>
      match unescape c with
      | Some c' => Some (stack, MString is_key (c' :: racc) SPlain)
      | None =>
          if at_code c 117 then Some (stack, MString is_key racc (SHex 0 0))
          else None
      end
  | SHex k acc =>
      match hex_of c with
      | None => None
      | Some d =>
          let acc' := (16 * acc + d)%N in
          if Nat.eqb k 3 then
            (if N.ltb acc' 256
             then Some (stack, MString is_key (ascii_of_N acc' :: racc) SPlain)
             else None)
          else Some (stack, MString is_key racc (SHex (S k) acc'))
      end
  end.

Definition step_number (stack : list frame) (ph : num_phase) (a : num_acc)
    (c : ascii) : option state :=
  match digit_of c with
  | Some d =>
      match ph with
      | NSign =>
          Some (stack, MNumber (if N.eqb d 0 then NZero else NInt)
                               (mkNum (neg a) d 0 false 0))
      | NZero => None
      | NInt =>
          Some (stack, MNumber NInt
                  (mkNum (neg a) (10 * mant a + d) 0 false 0))
      | NDot | NFrac =>
          Some (stack, MNumber NFrac
                  (mkNum (neg a) (10 * mant a + d) (S (scale a)) false 0))
      | NExp | NExpSign | NExpDigits =>
          Some (stack, MNumber NExpDigits
                  (mkNum (neg a) (mant a) (scale a) (eneg a) (10 * eabs a + d)))
      end
  | None =>
      if at_code c 46 then
        match ph with
        | NZero | NInt => Some (stack, MNumber NDot a)
        | _ => None
        end
      else if at_code c 101 || at_code c 69 then
        match ph with
        | NZero | NInt | NFrac => Some (stack, MNumber NExp a)
        | _ => None
        end
      else if at_code c 43 || at_code c 45 then
        match ph with
        | NExp =>
            Some (stack, MNumber NExpSign
                    (mkNum (neg a) (mant a) (scale a) (at_code c 45) 0))
        | _ => None
        end
      else if num_accepting ph then
        match push_value (num_value a) stack with
        | Some s => step_settled s c
        | None => None
        end
      else None
  end.

(** Inside [true], [false] or [null], [seen] characters of it read. *)
Definition step_literal (stack : list frame) (l : literal) (seen : nat)
    (c : ascii) : option state :=
  match String.get seen (literal_text l) with
  | Some c' =>
      if Ascii.eqb c c' then
        if Nat.eqb (S seen) (String.length (literal_text l))
        then push_value (literal_value l) stack
        else Some (stack, MLiteral l (S seen))
      else None
  | None => None
  end.

Definition step (s : state) (c : ascii) : option state :=
  let '(stack, m) := s in
  match m with
  | MValue first => step_value stack first c
  | MKey first => step_key stack first c
  | MColon => step_colon stack c
  | MAfter => step_after stack c
  | MDone v => step_done stack v c
  | MString is_key racc ph => step_string stack is_key racc ph c
  | MNumber ph a => step_number stack ph a c
  | MLiteral l seen => step_literal stack l seen c
  end.

Fixpoint run (s : state) (text : string) : option state :=
  match text with
  | EmptyString => Some s
  | String c text' =>
      match step s c with
      | Some s' => run s' text'
      | None => None
      end
  end.

(** End of input: a value must be complete and no container open. *)
Definition finish (s : state) : option json :=
  match s with
  | ([], MDone v) => Some v
  | ([], MNumber ph a) =>
      if num_accepting ph then Some (num_value a) else None
  | _ => None
  end.

Definition parse (text : string) : option json :=
  match run init text with
  | Some s => finish s
  | None => None
  end.

End JSON.

(** A JSON text written with [']  for the double quote, for readability of
    the examples. *)
Definition jtext (s : string) : string :=
  string_of_list_ascii
    (map (fun c => if Ascii.eqb c "'"%char then ascii_of_nat 34 else c)
         (list_ascii_of_string s)).


(** [z.infer<typeof AnalysisResultSchema>] of [groq.ts] and [openai.ts]. *)
Record AnalysisResult := mkAnalysisResult {
  matchPercentage : Q;
  matchedSkills : list string;
  missingSkills : list string;
  suggestions : list string
}.

(** ** The schema checks (zod) *)

(** The part of zod the two schemas use: [z.string()], [z.array(z.string())],
    [z.number().min(lo).max(hi)] and [z.object({...})] in its default mode,
    which reads the keys of the shape and drops every other key.  A check
    returns the value or the issues it raised; an object check raises the
    issues of all its fields. *)
Module Zod.

Inductive path_elem : Type := PKey (k : string) | PIndex (i : nat).

Inductive issue_code : Type :=
| invalid_type (expected received : string)
| too_small
| too_big.

Record issue := mkIssue { code : issue_code; path : list path_elem }.

Definition result (A : Type) : Type := A + list issue.

(** The name zod gives to the type of a value; [None] is [undefined]. *)
Definition parsedType (v : option json) : string :=
  match v with
  | None => "undefined"
  | Some JNull => "null"
  | Some (JBool _) => "boolean"
  | Some (JNum _) | Some (JInfinity _) => "number"
  | Some (JStr _) => "string"
  | Some (JArr _) => "array"
  | Some (JObj _) => "object"
  end.

Definition ap {A B : Type} (f : result (A -> B)) (x : result A) : result B :=
  match f, x with
  | inl g, inl a => inl (g a)
  | inl _, inr ys => inr ys
  | inr xs, inl _ => inr xs
  | inr xs, inr ys => inr (xs ++ ys)
  end.

(** [z.string()] *)
Definition string_ (p : list path_elem) (v : option json) : result string :=
  match v with
  | Some (JStr s) => inl s
  | _ => inr [mkIssue (invalid_type "string" (parsedType v)) p]
  end.

Fixpoint strings_from (p : list path_elem) (i : nat) (items : list json)
  : result (list string) :=
  match items with
  | [] => inl []
  | x :: rest =>
      ap (ap (inl cons) (string_ (p ++ [PIndex i]) (Some x)))
         (strings_from p (S i) rest)
  end.

(** [z.array(z.string())] *)
Definition array_of_strings (p : list path_elem) (v : option json)
  : result (list string) :=
  match v with
  | Some (JArr items) => strings_from p 0 items
  | _ => inr [mkIssue (invalid_type "array" (parsedType v)) p]
  end.

(** [z.number().min(lo).max(hi)]: both bounds are inclusive.  An infinity
    has the type [number] and is beyond the bound on its side. *)
Definition number_min_max (lo hi : Q) (p : list path_elem) (v : option json)
  : result Q :=
  match v with
  | Some (JNum q) =>
      match (if negb (Qle_bool lo q) then [mkIssue too_small p] else [])
            ++ (if negb (Qle_bool q hi) then [mkIssue too_big p] else []) with
      | [] => inl q
      | issues => inr issues
      end
  | Some (JInfinity negative) =>
      inr [mkIssue (if negative then too_small else too_big) p]
  | _ => inr [mkIssue (invalid_type "number" (parsedType v)) p]
  end.

(** The members of the value a [z.object] is applied to. *)
Definition object_ (v : json) : result (list (string * json)) :=
  match v with
  | JObj members => inl members
  | _ => inr [mkIssue (invalid_type "object" (parsedType (Some v))) []]
  end.

End Zod.

(** [ParsedResumeSchema.parse(parsed)] of [resumeParser.ts]: [inr] is the
    [ZodError] it throws. *)
Definition ParsedResumeSchema (parsed : json) : Zod.result ParsedResume :=
  match Zod.object_ parsed with
  | inr issues => inr issues
  | inl members =>
      Zod.ap (Zod.ap (Zod.ap (Zod.ap (inl mkParsedResume)
        (Zod.array_of_strings [Zod.PKey "skills"] (obj_get "skills" members)))
        (Zod.array_of_strings [Zod.PKey "experience"] (obj_get "experience" members)))
        (Zod.array_of_strings [Zod.PKey "education"] (obj_get "education" members)))
        (Zod.string_ [Zod.PKey "contact"] (obj_get "contact" members))
  end.

(** [AnalysisResultSchema.parse(parsed)] of [groq.ts] and [openai.ts]. *)
Definition AnalysisResultSchema (parsed : json) : Zod.result AnalysisResult :=
  match Zod.object_ parsed with
  | inr issues => inr issues
  | inl members =>
      Zod.ap (Zod.ap (Zod.ap (Zod.ap (inl mkAnalysisResult)
        (Zod.number_min_max 0 100 [Zod.PKey "matchPercentage"]
           (obj_get "matchPercentage" members)))
        (Zod.array_of_strings [Zod.PKey "matchedSkills"] (obj_get "matchedSkills" members)))
        (Zod.array_of_strings [Zod.PKey "missingSkills"] (obj_get "missingSkills" members)))
        (Zod.array_of_strings [Zod.PKey "suggestions"] (obj_get "suggestions" members))
  end.

(** ** Thrown values and completions *)

(** An object that was thrown: whether it is an [Error] instance, its
    [status] property ([None]: no such property; [Some None]: present and
    not a number) and its own [message] property, a string. *)
Record ErrorObject := mkErrorObject {
  err_isError : bool;
  err_status : option (option Z);
  err_message : option string
}.

Inductive Thrown : Type :=
| ThrownZod (issues : list Zod.issue)
| ThrownObject (e : ErrorObject)
| ThrownPrimitive.

(** [new Error(msg)] *)
Definition newError (msg : string) : Thrown :=
  ThrownObject (mkErrorObject true None (Some msg)).

Inductive Completion (A : Type) : Type :=
| Return (a : A)
| Throw (e : Thrown).
Arguments Return {A} a.
Arguments Throw {A} e.

(** [try { body } catch (error) { handler }] where the handler always
    throws. *)
Definition try_catch {A : Type} (body : Completion A) (handler : Thrown -> Thrown)
  : Completion A :=
  match body with
  | Return a => Return a
  | Throw e => Throw (handler e)
  end.

(** [error.message || ''] for a thrown object; an [Error] instance without
    an own message inherits the empty string. *)
Definition message_or_empty (e : ErrorObject) : string :=
  default EmptyString (err_message e).

(** ['message' in error] *)
Definition has_message (e : ErrorObject) : bool :=
  err_isError e || bool_decide (is_Some (err_message e)).

(** The error kinds of the specification's taxonomy; the handlers below
    tag each branch of the source with the kind it stands for. *)
Inductive ErrorKind : Type :=
| InvalidInput
| ConfigurationError
| AuthenticationError
| RateLimited
| ModelUnavailable
| MalformedResponse
| SchemaViolation
| UpstreamError.

(** ** The provider *)

(** What a stage submits: the credential the client was built with and the
    arguments of the one SDK call. *)
Record ChatRequest := mkChatRequest {
  req_apiKey : string;
  req_model : string;
  req_messages : list (string * string);
  req_temperature : Q;
  req_json_mode : bool
}.

(** What the SDK call does: it returns a completion, whose
    [choices[0]?.message?.content] may be missing, or it throws. *)
Inductive SdkOutcome : Type :=
| SdkReturns (content : option string)
| SdkThrows (e : Thrown).

Definition Provider : Type := ChatRequest -> SdkOutcome.

(** A stage's completion and the requests it submitted, in order. *)
Definition Run (A : Type) : Type := Completion A * list ChatRequest.

(** Truthiness of a value that is a string or [undefined]. *)
Definition truthy_opt (v : option string) : bool :=
  match v with
  | Some s => JS.truthy s
  | None => false
  end.

(** The engine- and library-worded texts the source embeds in its messages:
    the [message] of a [ZodError] and the [message] of the [SyntaxError]
    that [JSON.parse] throws on a text. *)
Record Wording := mkWording {
  zodMessage : list Zod.issue -> string;
  syntaxErrorMessage : string -> string
}.

(** ** The prompts *)

(** The [systemPrompt] template literal of [parseResumeFromText]. *)
Definition parser_systemPrompt : string :=
  "You are an expert resume parser. Extract structured data from resume text and return ONLY valid JSON.

Extract the following information:
1. skills: An array of technical and soft skills mentioned in the resume (e.g., ["
    +:+ JS.dquote +:+ "JavaScript"
    +:+ JS.dquote +:+ ", "
    +:+ JS.dquote +:+ "React"
    +:+ JS.dquote +:+ ", "
    +:+ JS.dquote +:+ "Team Leadership"
    +:+ JS.dquote +:+ ", "
    +:+ JS.dquote +:+ "Project Management"
    +:+ JS.dquote +:+ "])
2. experience: An array of work experience entries, each as a string describing the role, company, and key responsibilities (e.g., ["
    +:+ JS.dquote +:+ "Software Engineer at Google (2020-2023): Developed web applications using React and Node.js"
    +:+ JS.dquote +:+ "])
3. education: An array of educational qualifications (e.g., ["
    +:+ JS.dquote +:+ "BS in Computer Science from MIT (2016-2020)"
    +:+ JS.dquote +:+ "])
4. contact: A single string with contact information (email, phone, or location if available, otherwise "
    +:+ JS.dquote +:+ "Not provided"
    +:+ JS.dquote +:+ ")

Return ONLY valid JSON in this exact format:
{
  "
    +:+ JS.dquote +:+ "skills"
    +:+ JS.dquote +:+ ": string[],
  "
    +:+ JS.dquote +:+ "experience"
    +:+ JS.dquote +:+ ": string[],
  "
    +:+ JS.dquote +:+ "education"
    +:+ JS.dquote +:+ ": string[],
  "
    +:+ JS.dquote +:+ "contact"
    +:+ JS.dquote +:+ ": string
}

Do not include any markdown formatting, code blocks, or explanatory text. Return only the JSON object.".

(** The [systemPrompt] template literal of [analyzeResume]; the three
    variants have the same text. *)
Definition analysis_systemPrompt : string :=
  "You are an expert resume analyst. Your task is to analyze a resume against a job description and return a structured JSON response.

Analyze the resume text and job description, then provide:
1. matchPercentage: A realistic percentage (0-100) indicating how well the resume matches the job requirements. Be conservative and accurate.
2. matchedSkills: An array of skills that appear in both the resume and job description. Include technical skills, programming languages, tools, frameworks, and relevant soft skills.
3. missingSkills: An array of important skills mentioned in the job description that are not present in the resume.
4. suggestions: An array of actionable, specific improvement suggestions (2-5 suggestions) to help the candidate improve their resume match.

Return ONLY valid JSON in this exact format:
{
  "
    +:+ JS.dquote +:+ "matchPercentage"
    +:+ JS.dquote +:+ ": number,
  "
    +:+ JS.dquote +:+ "matchedSkills"
    +:+ JS.dquote +:+ ": string[],
  "
    +:+ JS.dquote +:+ "missingSkills"
    +:+ JS.dquote +:+ ": string[],
  "
    +:+ JS.dquote +:+ "suggestions"
    +:+ JS.dquote +:+ ": string[]
}

Do not include any markdown formatting, code blocks, or explanatory text. Return only the JSON object.".

(** The [userPrompt] template literal of [parseResumeFromText]. *)
Definition parser_userPrompt (resumeText : string) : string :=
  "Extract structured data from the following resume text:

" +:+ resumeText +:+ "

Provide the JSON response with skills, experience, education, and contact information.".

(** The [userPrompt] template literal of [analyzeResume]. *)
Definition analysis_userPrompt (resumeText jobDescription : string) : string :=
  "Resume Text:
" +:+ resumeText +:+ "

Job Description:
" +:+ jobDescription +:+ "

Analyze the resume against the job description and provide the JSON response as specified.".

(** ** Shared pieces of the stages *)

(** [process.env]: the variables that are set. *)
Abbreviation Env := (gmap string string).

(** [parseError instanceof Error ? parseError.message : 'Unknown error']
    in the message of the error thrown when [JSON.parse] fails. *)
Definition parse_failure (w : Wording) (text : string) : Thrown :=
  newError ("Failed to parse JSON response: " +:+ syntaxErrorMessage w text).

(** The message tests of the Groq handlers ([resumeParser.ts], [groq.ts]). *)
Definition mentions_rate_limit (errorMessage : string) : bool :=
  JS.includes errorMessage "429"
  || JS.includes (JS.toLowerCase errorMessage) "quota"
  || JS.includes (JS.toLowerCase errorMessage) "rate limit"
  || JS.includes (JS.toLowerCase errorMessage) "too many requests".

Definition mentions_authentication (errorMessage : string) : bool :=
  JS.includes errorMessage "401"
  || JS.includes (JS.toLowerCase errorMessage) "api key"
  || JS.includes (JS.toLowerCase errorMessage) "authentication"
  || JS.includes (JS.toLowerCase errorMessage) "unauthorized".

(** [`${status}`] for a status that is a number or [undefined]. *)
Definition render_status (st : option Z) : string :=
  match st with
  | Some n => NilZero.string_of_int (Z.to_int n)
  | None => "undefined"
  end.

(** ** The structured extraction stage: [parseResumeFromText] *)

Definition parser_not_configured : string :=
  "GROQ_API_KEY is not configured. Get a free API key at https://console.groq.com/keys".

(** The request of [groq.chat.completions.create] in [parseResumeFromText]. *)
Definition parser_request (apiKey resumeText : string) : ChatRequest :=
  mkChatRequest apiKey "llama-3.3-70b-versatile"
    [("system", parser_systemPrompt); ("user", parser_userPrompt resumeText)]
    (2 # 10) true.

(** The statements of the [try] block after the SDK call. *)
Definition parser_body (w : Wording) (outcome : SdkOutcome)
  : Completion ParsedResume :=
  match outcome with
  | SdkThrows e => Throw e
  | SdkReturns content =>
      if negb (truthy_opt content) then
        Throw (newError "No response content from resume parser")
      else
        let content := default EmptyString content in
        match JSON.parse content with
        | None => Throw (parse_failure w content)
        | Some parsed =>
            match ParsedResumeSchema parsed with
            | inr issues => Throw (ThrownZod issues)
            | inl validated =>
                Return {|
                  skills := JS.array_or (skills validated) [];
                  experience := JS.array_or (experience validated) [];
                  education := JS.array_or (education validated) [];
                  contact := JS.string_or (contact validated) "Not provided"
                |}
            end
        end
  end.

(** The [catch] block of [parseResumeFromText], with the kind of each
    branch. *)
Definition parser_catch (w : Wording) (error : Thrown) : ErrorKind * Thrown :=
  match error with
  | ThrownZod issues =>
      (SchemaViolation,
       newError ("Invalid resume structure from parser: " +:+ zodMessage w issues))
  | ThrownObject e =>
      let errorMessage := message_or_empty e in
      if has_message e && mentions_rate_limit errorMessage then
        (RateLimited,
         newError "Resume parser API rate limit exceeded. Please wait a moment and try again.")
      else if has_message e && mentions_authentication errorMessage then
        (AuthenticationError,
         newError "Resume parser API authentication failed. Please check that your GROQ_API_KEY is valid.")
      else if err_isError e then (UpstreamError, error)
      else (UpstreamError, newError "Unknown error occurred during resume parsing")
  | ThrownPrimitive =>
      (UpstreamError, newError "Unknown error occurred during resume parsing")
  end.

Definition parseResumeFromText (w : Wording) (env : Env) (groq : Provider)
    (resumeText : string) : Run ParsedResume :=
  let apiKey := env !! "GROQ_API_KEY" in
  if negb (truthy_opt apiKey) then (Throw (newError parser_not_configured), [])
  else
    let request := parser_request (default EmptyString apiKey) resumeText in
    (try_catch (parser_body w (groq request)) (fun e => snd (parser_catch w e)),
     [request]).

(** ** The match analysis stage, Groq variant: [analyzeResume] of [groq.ts] *)

Definition groq_request (apiKey resumeText jobDescription : string) : ChatRequest :=
  mkChatRequest apiKey "llama-3.3-70b-versatile"
    [("system", analysis_systemPrompt);
     ("user", analysis_userPrompt resumeText jobDescription)]
    (3 # 10) true.

(** Decode and validate: from [let parsed: unknown] to [return validated]. *)
Definition decode_analysis (w : Wording) (jsonContent : string)
  : Completion AnalysisResult :=
  match JSON.parse jsonContent with
  | None => Throw (parse_failure w jsonContent)
  | Some parsed =>
      match AnalysisResultSchema parsed with
      | inr issues => Throw (ThrownZod issues)
      | inl validated => Return validated
      end
  end.

Definition groq_body (w : Wording) (outcome : SdkOutcome)
  : Completion AnalysisResult :=
  match outcome with
  | SdkThrows e => Throw e
  | SdkReturns content =>
      if negb (truthy_opt content) then
        Throw (newError "No response content from Groq")
      else decode_analysis w (default EmptyString content)
  end.

Definition groq_rate_limited : string :=
  "Groq API rate limit exceeded. Free tier allows 14,400 requests per day. "
  +:+ "Please wait a moment and try again, or check your usage at https://console.groq.com".

Definition groq_authentication_failed : string :=
  "Groq API authentication failed. Please check that your API key is valid. "
  +:+ "Get a free API key at https://console.groq.com/keys".

(** The [catch] block of [analyzeResume] in [groq.ts], with the kind of
    each branch. *)
Definition groq_catch (w : Wording) (error : Thrown) : ErrorKind * Thrown :=
  match error with
  | ThrownZod issues =>
      (SchemaViolation,
       newError ("Invalid response structure from AI: " +:+ zodMessage w issues))
  | ThrownObject e =>
      let errorMessage := message_or_empty e in
      if has_message e && mentions_rate_limit errorMessage then
        (RateLimited, newError groq_rate_limited)
      else if has_message e && mentions_authentication errorMessage then
        (AuthenticationError, newError groq_authentication_failed)
      else if err_isError e then
        let errorMsg := message_or_empty e in
        if mentions_rate_limit errorMsg then
          (RateLimited,
           newError ("Groq API rate limit exceeded. Free tier allows 14,400 requests per day. "
                     +:+ "Please wait a moment and try again."))
        else (UpstreamError, error)
      else (UpstreamError, newError "Unknown error occurred during AI analysis")
  | ThrownPrimitive =>
      (UpstreamError, newError "Unknown error occurred during AI analysis")
  end.

Definition analyzeResume (w : Wording) (env : Env) (groq : Provider)
    (resumeText jobDescription : string) : Run AnalysisResult :=
  let apiKey := env !! "GROQ_API_KEY" in
  if negb (truthy_opt apiKey) then (Throw (newError parser_not_configured), [])
  else
    let request :=
      groq_request (default EmptyString apiKey) resumeText jobDescription in
    (try_catch (groq_body w (groq request)) (fun e => snd (groq_catch w e)),
     [request]).

(** ** The match analysis stage, OpenAI variant: [analyzeResume] of [openai.ts] *)

Definition openai_request (apiKey resumeText jobDescription : string) : ChatRequest :=
  mkChatRequest apiKey "gpt-4o-mini"
    [("system", analysis_systemPrompt);
     ("user", analysis_userPrompt resumeText jobDescription)]
    (3 # 10) true.

Definition openai_body (w : Wording) (outcome : SdkOutcome)
  : Completion AnalysisResult :=
  match outcome with
  | SdkThrows e => Throw e
  | SdkReturns content =>
      if negb (truthy_opt content) then
        Throw (newError "No response content from OpenAI")
      else decode_analysis w (default EmptyString content)
  end.

Definition openai_quota_exceeded : string :=
  "OpenAI API quota exceeded. Please check your OpenAI account billing and usage limits. "
  +:+ "Visit https://platform.openai.com/account/billing to add credits or upgrade your plan.".

Definition openai_rate_limited : string :=
  "OpenAI API rate limit exceeded. Please wait a moment and try again, or upgrade your plan for higher rate limits.".

Definition openai_authentication_failed : string :=
  "OpenAI API authentication failed. Please check that your API key is valid and correctly configured in your .env.local file.".

(** The message test of the fallback branch of the OpenAI handler. *)
Definition openai_mentions_quota (errorMsg : string) : bool :=
  JS.includes errorMsg "429"
  || JS.includes (JS.toLowerCase errorMsg) "quota"
  || JS.includes (JS.toLowerCase errorMsg) "billing"
  || JS.includes (JS.toLowerCase errorMsg) "exceeded your current quota".

(** The [catch] block of the OpenAI variant, with the kind of each branch. *)
Definition openai_catch (w : Wording) (error : Thrown) : ErrorKind * Thrown :=
  match error with
  | ThrownZod issues =>
      (SchemaViolation,
       newError ("Invalid response structure from AI: " +:+ zodMessage w issues))
  | ThrownObject e =>
      match err_status e with
      | Some status =>
          if bool_decide (status = Some 429%Z) then
            let errorMsg := JS.toLowerCase (message_or_empty e) in
            if JS.includes errorMsg "quota" || JS.includes errorMsg "billing"
               || JS.includes errorMsg "exceeded"
            then (RateLimited, newError openai_quota_exceeded)
            else (RateLimited, newError openai_rate_limited)
          else if bool_decide (status = Some 401%Z) then
            (AuthenticationError, newError openai_authentication_failed)
          else
            (UpstreamError,
             newError ("OpenAI API error (" +:+ render_status status +:+ "): "
                       +:+ JS.string_or (message_or_empty e) "Unknown error"))
      | None =>
          if err_isError e then
            let errorMsg := message_or_empty e in
            if openai_mentions_quota errorMsg
            then (RateLimited, newError openai_quota_exceeded)
            else if JS.includes (JS.toLowerCase errorMsg) "rate limit" then
              (RateLimited,
               newError "OpenAI API rate limit exceeded. Please wait a moment and try again.")
            else (UpstreamError, error)
          else (UpstreamError, newError "Unknown error occurred during AI analysis")
      end
  | ThrownPrimitive =>
      (UpstreamError, newError "Unknown error occurred during AI analysis")
  end.

Definition analyzeResume_openai (w : Wording) (env : Env) (openai : Provider)
    (resumeText jobDescription : string) : Run AnalysisResult :=
  let apiKey := env !! "OPENAI_API_KEY" in
  if negb (truthy_opt apiKey) then
    (Throw (newError "OPENAI_API_KEY is not configured"), [])
  else
    let request :=
      openai_request (default EmptyString apiKey) resumeText jobDescription in
    (try_catch (openai_body w (openai request)) (fun e => snd (openai_catch w e)),
     [request]).

(** ** The match analysis stage, Gemini variant: second [analyzeResume] of
    [openai.ts] *)

(** The text left when [p] is a prefix of [s]. *)
Fixpoint strip_prefix (p s : string) : option string :=
  match p, s with
  | EmptyString, _ => Some s
  | String a p', String b s' => if Ascii.eqb a b then strip_prefix p' s' else None
  | String _ _, EmptyString => None
  end.

(** [s.replace(/^FENCE\n?/, '')] where [FENCE] is the literal text
    [```json] or [```]: the fence at the start and one line feed after it,
    when there is one. *)
Definition replace_opening_fence (fence s : string) : string :=
  match strip_prefix fence s with
  | Some (String c rest) => if Ascii.eqb c (ascii_of_nat 10) then rest else String c rest
  | Some EmptyString => EmptyString
  | None => s
  end.

(** [s.replace(/\n?```$/, '')]: the pattern has no [m] flag, so [$] is the
    end of the text; the leftmost position where the pattern matches is
    the first one whose remainder is a line feed and three backticks, or
    three backticks. *)
Fixpoint replace_closing_fence (s : string) : string :=
  if String.eqb s (JS.LF +:+ "```") || String.eqb s "```" then EmptyString
  else match s with
       | EmptyString => EmptyString
       | String c s' => String c (replace_closing_fence s')
       end.

(** From [let jsonContent = content.trim()] to the argument of
    [JSON.parse]. *)
Definition strip_code_fences (content : string) : string :=
  let jsonContent := JS.trim content in
  if JS.startsWith jsonContent "```json" then
    replace_closing_fence (replace_opening_fence "```json" jsonContent)
  else if JS.startsWith jsonContent "```" then
    replace_closing_fence (replace_opening_fence "```" jsonContent)
  else jsonContent.

Definition gemini_modelName : string := "gemini-1.5-flash".

Definition gemini_request (apiKey resumeText jobDescription : string) : ChatRequest :=
  mkChatRequest apiKey gemini_modelName
    [("user", analysis_systemPrompt +:+ JS.LF +:+ JS.LF
              +:+ analysis_userPrompt resumeText jobDescription)]
    (3 # 10) true.

Definition gemini_body (w : Wording) (outcome : SdkOutcome)
  : Completion AnalysisResult :=
  match outcome with
  | SdkThrows e => Throw e
  | SdkReturns content =>
      if negb (truthy_opt content) then
        Throw (newError "No response content from Gemini")
      else
        let content := default EmptyString content in
        match JSON.parse (strip_code_fences content) with
        | None => Throw (parse_failure w (strip_code_fences content))
        | Some parsed =>
            match AnalysisResultSchema parsed with
            | inr issues => Throw (ThrownZod issues)
            | inl validated => Return validated
            end
        end
  end.

Definition gemini_model_unavailable : string :=
  "Gemini model " +:+ JS.dquote +:+ gemini_modelName +:+ JS.dquote
  +:+ " is not available for your account/region. "
  +:+ "Available models vary by region. Try changing the model name in lib/gemini.ts to: "
  +:+ JS.dquote +:+ "gemini-pro" +:+ JS.dquote +:+ " or "
  +:+ JS.dquote +:+ "gemini-1.5-flash" +:+ JS.dquote +:+ ". "
  +:+ "Check available models: https://ai.google.dev/models".

Definition gemini_quota_exceeded : string :=
  "Gemini API quota exceeded. You have reached the free tier limit. "
  +:+ "Please wait a moment and try again, or upgrade at https://ai.google.dev/pricing".

Definition gemini_authentication_failed : string :=
  "Gemini API authentication failed. Please check that your API key is valid. "
  +:+ "Get a free API key at https://makersuite.google.com/app/apikey".

Definition gemini_mentions_quota (errorMessage : string) : bool :=
  JS.includes errorMessage "429"
  || JS.includes (JS.toLowerCase errorMessage) "quota"
  || JS.includes (JS.toLowerCase errorMessage) "resource exhausted"
  || JS.includes (JS.toLowerCase errorMessage) "rate limit".

Definition gemini_mentions_not_found (errorMessage : string) : bool :=
  JS.includes errorMessage "404"
  || JS.includes (JS.toLowerCase errorMessage) "not found"
  || JS.includes (JS.toLowerCase errorMessage) "is not found for api version"
  || JS.includes (JS.toLowerCase errorMessage) "is not found".

(** The [catch] block of the Gemini variant, with the kind of each branch. *)
Definition gemini_catch (w : Wording) (error : Thrown) : ErrorKind * Thrown :=
  match error with
  | ThrownZod issues =>
      (SchemaViolation,
       newError ("Invalid response structure from AI: " +:+ zodMessage w issues))
  | ThrownObject e =>
      let errorMessage := message_or_empty e in
      if has_message e && gemini_mentions_not_found errorMessage
      then (ModelUnavailable, newError gemini_model_unavailable)
      else if has_message e && gemini_mentions_quota errorMessage then
        (RateLimited, newError gemini_quota_exceeded)
      else if has_message e
              && (JS.includes errorMessage "401"
                  || JS.includes (JS.toLowerCase errorMessage) "api key"
                  || JS.includes (JS.toLowerCase errorMessage) "authentication")
      then (AuthenticationError, newError gemini_authentication_failed)
      else if err_isError e then
        if gemini_mentions_quota (message_or_empty e) then
          (RateLimited, newError gemini_quota_exceeded)
        else (UpstreamError, error)
      else (UpstreamError, newError "Unknown error occurred during AI analysis")
  | ThrownPrimitive =>
      (UpstreamError, newError "Unknown error occurred during AI analysis")
  end.

Definition analyzeResume_gemini (w : Wording) (env : Env) (gemini : Provider)
    (resumeText jobDescription : string) : Run AnalysisResult :=
  let apiKey := env !! "GEMINI_API_KEY" in
  if negb (truthy_opt apiKey) then
    (Throw (newError
       "GEMINI_API_KEY is not configured. Get a free API key at https://makersuite.google.com/app/apikey"),
     [])
  else
    let request :=
      gemini_request (default EmptyString apiKey) resumeText jobDescription in
    (try_catch (gemini_body w (gemini request)) (fun e => snd (gemini_catch w e)),
     [request]).

(** ** The route handlers *)

(** [NextResponse.json(body, { status })]; the status is 200 when the
    source gives none. *)
Inductive ResponseBody : Type :=
| ErrorBody (error : string)
| ResumeBody (parsedResume : ParsedResume)
| AnalysisBody (analysis : AnalysisResult).

Record Response := mkResponse { resp_status : nat; resp_body : ResponseBody }.

(** [error instanceof Error ? error.message : fallback] *)
Definition message_of_or (w : Wording) (error : Thrown) (fallback : string) : string :=
  match error with
  | ThrownZod issues => zodMessage w issues
  | ThrownObject e => if err_isError e then message_or_empty e else fallback
  | ThrownPrimitive => fallback
  end.

(** The uploaded [File]: its [type], its [size] and its bytes. *)
Record File := mkFile { file_type : string; file_size : N; file_bytes : string }.

Definition could_not_extract_text : string :=
  "Could not extract text from PDF. The PDF may be image-based (scanned) or contain no readable text. Please ensure the PDF contains selectable text.".

(** [POST] of the resume parsing route ([src/unnamed/part_001]), from the
    form field [resumeFile] on.  [extractTextFromPDF] is the function of
    [@/lib/pdfParser]; the route is stated for any such function. *)
Definition parse_resume_POST (w : Wording) (env : Env) (groq : Provider)
    (extractTextFromPDF : string -> Completion string)
    (resumeFile : option File) : Response * list ChatRequest :=
  match resumeFile with
  | None => (mkResponse 400 (ErrorBody "Resume file is required"), [])
  | Some resumeFile =>
      if negb (String.eqb (file_type resumeFile) "application/pdf") then
        (mkResponse 400 (ErrorBody "Only PDF files are supported"), [])
      else
        let maxSize := (10 * 1024 * 1024)%N in
        if N.ltb maxSize (file_size resumeFile) then
          (mkResponse 400
             (ErrorBody "File size exceeds 10MB limit. Please upload a smaller file."),
           [])
        else
          match extractTextFromPDF (file_bytes resumeFile) with
          | Throw pdfError =>
              (mkResponse 400
                 (ErrorBody
                    (message_of_or w pdfError
                       "Failed to extract text from PDF. The PDF may be corrupted or image-based.")),
               [])
          | Return resumeText =>
              if negb (JS.truthy resumeText)
                 || Nat.eqb (JS.length (JS.trim resumeText)) 0
              then (mkResponse 400 (ErrorBody could_not_extract_text), [])
              else
                let '(outcome, submitted) :=
                  parseResumeFromText w env groq resumeText in
                match outcome with
                | Throw parseError =>
                    (mkResponse 500
                       (ErrorBody
                          (message_of_or w parseError
                             "Failed to parse resume data. Please try again.")),
                     submitted)
                | Return parsedResume =>
                    if Nat.eqb (List.length (skills parsedResume)) 0
                       && Nat.eqb (List.length (experience parsedResume)) 0
                       && Nat.eqb (List.length (education parsedResume)) 0
                    then
                      (mkResponse 400
                         (ErrorBody
                            "Could not extract meaningful data from resume. Please ensure the resume contains skills, experience, or education information."),
                       submitted)
                    else (mkResponse 200 (ResumeBody parsedResume), submitted)
                end
          end
  end.

(** [!xs] for an array [xs]: an array is truthy. *)
Definition array_missing {A : Type} (xs : list A) : bool := false.

(** [POST] of the analysis route ([src/app/api/analyze/route.ts]), from the
    two fields of the request body on; [None] is a field that is absent.
    The fields have the types the source casts them to. *)
Definition analyze_POST (w : Wording) (env : Env) (groq : Provider)
    (parsedResume : option ParsedResume) (jobDescription : option string)
  : Response * list ChatRequest :=
  match parsedResume with
  | None =>
      (mkResponse 400
         (ErrorBody "Parsed resume data is required. Please parse the resume first."),
       [])
  | Some parsedResume =>
      if negb (truthy_opt jobDescription)
         || Nat.eqb (JS.length (JS.trim (default EmptyString jobDescription))) 0
      then (mkResponse 400 (ErrorBody "Job description is required"), [])
      else
        let jobDescription := default EmptyString jobDescription in
        if array_missing (skills parsedResume)
           || array_missing (experience parsedResume)
           || array_missing (education parsedResume)
           || negb (JS.truthy (contact parsedResume))
        then (mkResponse 400 (ErrorBody "Invalid parsed resume structure"), [])
        else
          let formattedResume := formatResumeForAnalysis parsedResume in
          let '(outcome, submitted) :=
            analyzeResume w env groq formattedResume jobDescription in
          match outcome with
          | Return analysis => (mkResponse 200 (AnalysisBody analysis), submitted)
          | Throw error =>
              (mkResponse 500
                 (ErrorBody (message_of_or w error "An unknown error occurred")),
               submitted)
          end
  end.

(** ** The PDF text extractor: [extractTextFromPDF] ([src/unnamed/part_000]) *)

(** What [pdfParse] resolves to: a value that is falsy or not an object,
    or an object, with its [text] when that is a string. *)
Inductive PdfData : Type :=
| PdfNotObject
| PdfObject (text : option string).

(** A [Buffer] is the string of its bytes.  [toString('ascii')] unsets the
    highest bit of each byte. *)
Definition ascii7 (c : ascii) : ascii :=
  match c with
  | Ascii b0 b1 b2 b3 b4 b5 b6 _ => Ascii b0 b1 b2 b3 b4 b5 b6 false
  end.

Fixpoint toString_ascii (bytes : string) : string :=
  match bytes with
  | EmptyString => EmptyString
  | String c rest => String (ascii7 c) (toString_ascii rest)
  end.

(** [fileBuffer.slice(0, 4).toString('ascii')] *)
Definition pdfHeader (fileBuffer : string) : string :=
  toString_ascii (String.substring 0 4 fileBuffer).

(** The statements of the [try] block after the call of [pdfParse]. *)
Definition pdf_body (outcome : Completion PdfData) : Completion string :=
  match outcome with
  | Throw e => Throw e
  | Return data =>
      match data with
      | PdfNotObject =>
          Throw (newError "PDF parsing returned invalid data structure")
      | PdfObject t =>
          let text := default EmptyString t in
          if negb (JS.truthy text) || Nat.eqb (JS.length (JS.trim text)) 0
          then Throw (newError could_not_extract_text)
          else Return (JS.trim text)
      end
  end.

Definition pdf_not_supported : string :=
  "PDF parsing failed: The PDF format may not be fully supported. This can happen with scanned PDFs, PDFs with complex layouts, or corrupted files. Please try a different PDF file or ensure the PDF contains selectable text (not just images).".

(** The [catch] block of [extractTextFromPDF]. *)
Definition pdf_catch (w : Wording) (error : Thrown) : Thrown :=
  let known (errorMessage : string) : Thrown :=
    if JS.includes errorMessage "Cannot read properties of undefined"
       || JS.includes errorMessage "reading '0'"
       || JS.includes errorMessage "Cannot read property"
    then newError pdf_not_supported
    else if JS.includes errorMessage "Invalid PDF"
            || JS.includes errorMessage "invalid PDF"
    then newError "Invalid PDF file format. Please ensure the file is a valid PDF document."
    else if JS.includes errorMessage "Password required"
            || JS.includes errorMessage "password"
    then newError "This PDF is password-protected. Please remove the password and try again."
    else newError ("Failed to parse PDF: " +:+ errorMessage) in
  match error with
  | ThrownZod issues => known (zodMessage w issues)
  | ThrownObject e =>
      if err_isError e then known (message_or_empty e)
      else newError "Failed to parse PDF: Unknown error occurred. Please try a different PDF file."
  | ThrownPrimitive =>
      newError "Failed to parse PDF: Unknown error occurred. Please try a different PDF file."
  end.

(** [extractTextFromPDF]; [pdfParse] is the library call. *)
Definition extractTextFromPDF (w : Wording)
    (pdfParse : string -> Completion PdfData) (fileBuffer : string)
  : Completion string :=
  if Nat.eqb (String.length fileBuffer) 0 then
    Throw (newError "Invalid PDF file: File buffer is empty or undefined")
  else if negb (String.eqb (pdfHeader fileBuffer) "%PDF") then
    Throw (newError "Invalid PDF file: File does not appear to be a valid PDF")
  else try_catch (pdf_body (pdfParse fileBuffer)) (pdf_catch w).

(** ** The browser side: [AnalysisResults], [FileUpload], [ResumeAnalyzer] *)

(** [getMatchColor] and [getMatchLabel] of [AnalysisResults.tsx]. *)
Definition getMatchColor (percentage : Q) : string :=
  if Qle_bool 70 percentage then "bg-green-500"
  else if Qle_bool 50 percentage then "bg-yellow-500"
  else "bg-red-500".

Definition getMatchLabel (percentage : Q) : string :=
  if Qle_bool 70 percentage then "Strong Match"
  else if Qle_bool 50 percentage then "Moderate Match"
  else "Weak Match".

(** [handleDrop] and [handleFileSelect] of [FileUpload.tsx], as the file
    the parent holds afterwards: [file] is the one it holds before, and
    [onFileChange] replaces it. *)
Definition handleDrop (accept : string) (file : option File)
    (droppedFile : option File) : option File :=
  match droppedFile with
  | Some f => if String.eqb (file_type f) accept then Some f else file
  | None => file
  end.

Definition handleFileSelect (file : option File) (selectedFile : option File)
  : option File :=
  match selectedFile with
  | Some f => Some f
  | None => file
  end.

(** The state of [ResumeAnalyzer] that [handleSubmit] writes.  [analysis]
    holds what [analyzeResponse.json()] gave, which is the body the route
    sent. *)
Record UiState := mkUiState {
  ui_analysis : option ResponseBody;
  ui_loading : bool;
  ui_error : option string
}.

(** [response.ok] *)
Definition response_ok (r : Response) : bool :=
  Nat.leb 200 (resp_status r) && Nat.leb (resp_status r) 299.

(** [errorData.error || fallback] for the body of a response. *)
Definition error_or (body : ResponseBody) (fallback : string) : string :=
  match body with
  | ErrorBody error => JS.string_or error fallback
  | _ => fallback
  end.

(** The analysis route on the body [{ parsedResume, jobDescription }] that
    [handleSubmit] posts, where [parsedResume] is the body of the parsing
    route's answer.  A body that is not a resume is an object without
    [skills]: with a job description that passed the client's test the
    route answers "Invalid parsed resume structure". *)
Definition analyze_fetch (w : Wording) (env : Env) (groq : Provider)
    (parsedResume : ResponseBody) (jobDescription : string)
  : Response * list ChatRequest :=
  match parsedResume with
  | ResumeBody r => analyze_POST w env groq (Some r) (Some jobDescription)
  | _ =>
      if negb (JS.truthy jobDescription)
         || Nat.eqb (JS.length (JS.trim jobDescription)) 0
      then (mkResponse 400 (ErrorBody "Job description is required"), [])
      else (mkResponse 400 (ErrorBody "Invalid parsed resume structure"), [])
  end.

(** [handleSubmit] of [ResumeAnalyzer.tsx], with the two [fetch] calls
    answered by the route handlers of this repository.  [loading] is the
    flag before the call; the result is the state after it and the
    requests that reached the provider. *)
Definition handleSubmit (w : Wording) (env : Env) (groq : Provider)
    (extractTextFromPDF : string -> Completion string)
    (loading : bool) (resumeFile : option File) (jobDescription : string)
  : UiState * list ChatRequest :=
  match resumeFile with
  | None => (mkUiState None loading (Some "Please upload a resume file"), [])
  | Some resumeFile =>
      if negb (JS.truthy (JS.trim jobDescription)) then
        (mkUiState None loading (Some "Please provide a job description"), [])
      else
        let '(parseResponse, submitted1) :=
          parse_resume_POST w env groq extractTextFromPDF (Some resumeFile) in
        if negb (response_ok parseResponse) then
          (mkUiState None false
             (Some (error_or (resp_body parseResponse) "Resume parsing failed")),
           submitted1)
        else
          let '(analyzeResponse, submitted2) :=
            analyze_fetch w env groq (resp_body parseResponse) jobDescription in
          if negb (response_ok analyzeResponse) then
            (mkUiState None false
               (Some (error_or (resp_body analyzeResponse) "Analysis failed")),
             submitted1 ++ submitted2)
          else
            (mkUiState (Some (resp_body analyzeResponse)) false None,
             submitted1 ++ submitted2)
  end.

(** The [disabled] attribute of the submit button. *)
Definition submit_disabled (loading : bool) (resumeFile : option File)
    (jobDescription : string) : bool :=
  loading || negb (bool_decide (is_Some resumeFile))
  || negb (JS.truthy (JS.trim jobDescription)).

(** A [pdfParse] that resolves to an object with the given text. *)
Definition pdf_with_text (text : string) : string -> Completion PdfData :=
  fun _ => Return (PdfObject (Some text)).

(** ** Sample wordings and providers, for the examples *)

(** A wording in the manner of V8 and of zod: the examples below are
    evaluated with it. *)
Definition sample_wording : Wording :=
  mkWording (fun issues => "[ ... ]") (fun text => "Unexpected token in JSON").

(** A provider that answers every request with the same content. *)
Definition answering (content : string) : Provider :=
  fun _ => SdkReturns (Some content).

(** A provider whose SDK call throws [e]. *)
Definition failing (e : Thrown) : Provider := fun _ => SdkThrows e.

(** An environment with the Groq credential set. *)
Definition env_with_groq_key : Env := {[ "GROQ_API_KEY" := "gsk_test" ]}.

(** A payload between [```json] fences, each on a line of its own. *)
Definition fence_json (payload : string) : string :=
  "```json" +:+ JS.LF +:+ payload +:+ JS.LF +:+ "```".

(** ** Definitions the statements use *)

(** The formatter as the specification words it: which of the three
    sections are present decides the text, and two present sections are
    one blank line apart. *)
Definition formatForAnalysis_spec (resume : ParsedResume) : string :=
  let blank := JS.LF +:+ JS.LF in
  let sk := "Skills: " +:+ JS.join (skills resume) ", " in
  let ex := "Experience:" +:+ JS.LF +:+ JS.join (experience resume) JS.LF in
  let ed := "Education:" +:+ JS.LF +:+ JS.join (education resume) JS.LF in
  match skills resume, experience resume, education resume with
  | [], [], [] => EmptyString
  | _ :: _, [], [] => sk
  | [], _ :: _, [] => ex
  | [], [], _ :: _ => ed
  | _ :: _, _ :: _, [] => sk +:+ blank +:+ ex
  | _ :: _, [], _ :: _ => sk +:+ blank +:+ ed
  | [], _ :: _, _ :: _ => ex +:+ blank +:+ ed
  | _ :: _, _ :: _, _ :: _ => sk +:+ blank +:+ ex +:+ blank +:+ ed
  end.

(** The issues a check raised: none when it returned a value. *)
Definition issues_of {A : Type} (r : Zod.result A) : list Zod.issue :=
  match r with
  | inl _ => []
  | inr issues => issues
  end.

(** The issue zod raises for a property of the shape that is absent. *)
Definition required_issue (expected key : string) : Zod.issue :=
  Zod.mkIssue (Zod.invalid_type expected "undefined") [Zod.PKey key].

(** The [matchPercentage] property of a decoded value; [None] when the
    value is not an object or has no such property. *)
Definition matchPercentage_field (parsed : json) : option json :=
  match parsed with
  | JObj members => obj_get "matchPercentage" members
  | _ => None
  end.

(** * Properties *)

(** ** The formatter *)

Example format_full :
  formatResumeForAnalysis
    (mkParsedResume ["Python"; "AWS"] ["Dev at X"; "Ops at Y"] ["BS"] "a@b.c")
  = "Skills: Python, AWS

Experience:
Dev at X
Ops at Y

Education:
BS".
Proof. reflexivity. Qed.

Example format_skips_empty :
  formatResumeForAnalysis (mkParsedResume ["Go"] [] ["MS"; "BS"] "x")
  = "Skills: Go

Education:
MS
BS".
Proof. reflexivity. Qed.

(** C6. [formatResumeForAnalysis] is a total function of the resume that
    emits the Skills line, the Experience block and the Education block in
    that order, leaves out a section whose list is empty, puts one blank
    line between two present sections, does not depend on [contact], and
    returns the empty string when the three lists are empty. *)
Theorem C6_formatResumeForAnalysis (r : ParsedResume) :
  formatResumeForAnalysis r = formatForAnalysis_spec r
  /\ (forall c : string,
        formatResumeForAnalysis
          (mkParsedResume (skills r) (experience r) (education r) c)
        = formatResumeForAnalysis r)
  /\ (forall c : string,
        formatResumeForAnalysis (mkParsedResume [] [] [] c) = EmptyString).
Proof.
  split; [| split].
  - destruct r as [sk ex ed c].
    unfold formatResumeForAnalysis, formatForAnalysis_spec,
      skills_section, experience_section, education_section.
    cbn [skills experience education].
    destruct sk, ex, ed; reflexivity.
  - intros c. destruct r; reflexivity.
  - intros c. reflexivity.
Qed.

(** ** Decoding *)

Example parse_object :
  JSON.parse (jtext "{'a': [1, true, null], 'b': {'c': 'x\ny'}, 'a': -2.5e1 } ")
  = Some (JObj [("a", JArr [JNum (1 # 1)%Q;
                            JBool true; JNull]);
                ("b", JObj [("c", JStr ("x" +:+ JS.LF +:+ "y"))]);
                ("a", JNum ((-25) # 1)%Q)]).
Proof. vm_compute. reflexivity. Qed.

Example parse_rejects_prose :
  JSON.parse "Here is the JSON you asked for" = None.
Proof. reflexivity. Qed.

Example parse_rejects_trailing_comma : JSON.parse "[1,2,]" = None.
Proof. reflexivity. Qed.

(** A numeric literal denotes the nearest double: a literal just above 100
    is 100, one too small for a double is zero, one too large is an
    infinity. *)
Example parse_rounds_to_nearest :
  JSON.parse "100.00000000000000001" = Some (JNum 100)
  /\ JSON.parse "0.1" = Some (JNum (3602879701896397 # 36028797018963968))
  /\ JSON.parse "9007199254740993" = Some (JNum 9007199254740992)
  /\ JSON.parse "-1e-400" = Some (JNum 0)
  /\ JSON.parse "1e999" = Some (JInfinity false)
  /\ JSON.parse "-1e999" = Some (JInfinity true).
Proof. vm_compute. repeat split; reflexivity. Qed.

Lemma parse_some_truthy (content : string) (v : json) :
  JSON.parse content = Some v -> truthy_opt (Some content) = true.
Proof. destruct content; [discriminate | reflexivity]. Qed.

(** ** The credential check *)

(** C8. With [GROQ_API_KEY] absent from the environment, both stages
    complete by throwing the [Error] that says the key is not configured,
    and submit no request. *)
Theorem C8_missing_credential (w : Wording) (env : Env) (groq : Provider)
    (rawText resumeText jobDescription : string) :
  env !! "GROQ_API_KEY" = None ->
  parseResumeFromText w env groq rawText
    = (Throw (newError parser_not_configured), [])
  /\ analyzeResume w env groq resumeText jobDescription
    = (Throw (newError parser_not_configured), []).
Proof.
  intros Habsent. unfold parseResumeFromText, analyzeResume.
  rewrite Habsent. split; reflexivity.
Qed.

Lemma C8_missing_credential_witness :
  (∅ : Env) !! "GROQ_API_KEY" = None
  /\ parseResumeFromText sample_wording ∅ (answering "{}") "Python developer"
     = (Throw (newError parser_not_configured), [])
  /\ analyzeResume sample_wording ∅ (answering "{}") "Skills: Python" "Python expert"
     = (Throw (newError parser_not_configured), []).
Proof.
  split; [reflexivity |].
  apply (C8_missing_credential sample_wording ∅ (answering "{}")
           "Python developer" "Skills: Python" "Python expert").
  reflexivity.
Defined.

(** The OpenAI and the Gemini variant test their own variable the same
    way. *)
Lemma missing_credential_other_variants (w : Wording) (env : Env)
    (provider : Provider) (resumeText jobDescription : string) :
  (env !! "OPENAI_API_KEY" = None ->
   analyzeResume_openai w env provider resumeText jobDescription
   = (Throw (newError "OPENAI_API_KEY is not configured"), []))
  /\ (env !! "GEMINI_API_KEY" = None ->
      snd (analyzeResume_gemini w env provider resumeText jobDescription) = []
      /\ exists msg,
           fst (analyzeResume_gemini w env provider resumeText jobDescription)
           = Throw (newError msg)).
Proof.
  split; intros Habsent.
  - unfold analyzeResume_openai. now rewrite Habsent.
  - unfold analyzeResume_gemini. rewrite Habsent. cbn. eauto.
Qed.

(** An empty value of the variable counts as absent. *)
Lemma empty_credential (w : Wording) (groq : Provider) (resumeText : string) :
  parseResumeFromText w {[ "GROQ_API_KEY" := EmptyString ]} groq resumeText
  = (Throw (newError parser_not_configured), []).
Proof. reflexivity. Qed.

(** ** The schema checks *)

Lemma ap_inl {A B : Type} (f : Zod.result (A -> B)) (x : Zod.result A) (b : B) :
  Zod.ap f x = inl b -> exists g a, f = inl g /\ x = inl a /\ b = g a.
Proof.
  destruct f as [g | xs], x as [a | ys]; cbn; intros H; try discriminate.
  injection H as <-. eauto.
Qed.

Lemma ap_inr_l {A B : Type} (xs : list Zod.issue) (x : Zod.result A) :
  exists zs, Zod.ap (inr xs : Zod.result (A -> B)) x = inr zs.
Proof. destruct x; cbn; eauto. Qed.

Lemma ap_inr_r {A B : Type} (f : Zod.result (A -> B)) (ys : list Zod.issue) :
  exists zs, Zod.ap f (inr ys) = inr zs.
Proof. destruct f; cbn; eauto. Qed.

Lemma string_inl (p : list Zod.path_elem) (v : option json) (s : string) :
  Zod.string_ p v = inl s -> v = Some (JStr s).
Proof.
  destruct v as [[| | | | | |] |]; cbn; intros H; try discriminate.
  now injection H as <-.
Qed.

Lemma strings_from_inl (p : list Zod.path_elem) (items : list json) :
  forall (i : nat) (l : list string),
    Zod.strings_from p i items = inl l -> items = map JStr l.
Proof.
  induction items as [| x rest IH]; intros i l H; cbn [Zod.strings_from] in H.
  - now injection H as <-.
  - apply ap_inl in H as (g & tl & Hg & Htl & ->).
    apply ap_inl in Hg as (c & s & Hc & Hs & ->).
    injection Hc as <-. apply string_inl in Hs. injection Hs as ->.
    cbn. f_equal. eapply IH, Htl.
Qed.

Lemma array_of_strings_inl (p : list Zod.path_elem) (v : option json)
    (l : list string) :
  Zod.array_of_strings p v = inl l -> v = Some (JArr (map JStr l)).
Proof.
  destruct v as [[| | | | items | |] |]; cbn; intros H; try discriminate.
  apply strings_from_inl in H. now subst.
Qed.

Lemma array_of_strings_undefined (p : list Zod.path_elem) :
  Zod.array_of_strings p None
  = inr [Zod.mkIssue (Zod.invalid_type "array" "undefined") p].
Proof. reflexivity. Qed.

Lemma number_min_max_inl (lo hi : Q) (p : list Zod.path_elem)
    (v : option json) (q : Q) :
  Zod.number_min_max lo hi p v = inl q ->
  v = Some (JNum q) /\ (lo <= q)%Q /\ (q <= hi)%Q.
Proof.
  destruct v as [[| | x | | | |] |]; cbn; intros H; try discriminate.
  destruct (Qle_bool lo x) eqn:Hlo, (Qle_bool x hi) eqn:Hhi; cbn in H;
    try discriminate.
  injection H as <-.
  apply Qle_bool_iff in Hlo, Hhi. auto.
Qed.

(** What a passing [ParsedResumeSchema] check says about the decoded value:
    it is an object whose four properties have the values of the record. *)
Lemma ParsedResumeSchema_inl (parsed : json) (v : ParsedResume) :
  ParsedResumeSchema parsed = inl v ->
  exists members,
    parsed = JObj members
    /\ obj_get "skills" members = Some (JArr (map JStr (skills v)))
    /\ obj_get "experience" members = Some (JArr (map JStr (experience v)))
    /\ obj_get "education" members = Some (JArr (map JStr (education v)))
    /\ obj_get "contact" members = Some (JStr (contact v)).
Proof.
  unfold ParsedResumeSchema.
  destruct parsed as [| | | | | members |]; cbn [Zod.object_]; try discriminate.
  intros H. exists members.
  apply ap_inl in H as (g4 & c & H & Hc & ->).
  apply ap_inl in H as (g3 & ed & H & Hed & ->).
  apply ap_inl in H as (g2 & ex & H & Hex & ->).
  apply ap_inl in H as (g1 & sk & H & Hsk & ->).
  injection H as <-. cbn.
  apply array_of_strings_inl in Hsk, Hex, Hed. apply string_inl in Hc.
  auto.
Qed.

(** The same for [AnalysisResultSchema]; the percentage is in range. *)
Lemma AnalysisResultSchema_inl (parsed : json) (v : AnalysisResult) :
  AnalysisResultSchema parsed = inl v ->
  exists members,
    parsed = JObj members
    /\ obj_get "matchPercentage" members = Some (JNum (matchPercentage v))
    /\ (0 <= matchPercentage v)%Q /\ (matchPercentage v <= 100)%Q
    /\ obj_get "matchedSkills" members = Some (JArr (map JStr (matchedSkills v)))
    /\ obj_get "missingSkills" members = Some (JArr (map JStr (missingSkills v)))
    /\ obj_get "suggestions" members = Some (JArr (map JStr (suggestions v))).
Proof.
  unfold AnalysisResultSchema.
  destruct parsed as [| | | | | members |]; cbn [Zod.object_]; try discriminate.
  intros H. exists members.
  apply ap_inl in H as (g4 & su & H & Hsu & ->).
  apply ap_inl in H as (g3 & mi & H & Hmi & ->).
  apply ap_inl in H as (g2 & ma & H & Hma & ->).
  apply ap_inl in H as (g1 & pc & H & Hpc & ->).
  injection H as <-. cbn.
  apply array_of_strings_inl in Hsu, Hmi, Hma.
  apply number_min_max_inl in Hpc as (Hpc & Hlo & Hhi).
  auto 10.
Qed.

(** ** The structured extraction stage *)

(** The stage with a configured credential and a provider that answered. *)
Lemma parseResumeFromText_answered (w : Wording) (env : Env) (groq : Provider)
    (resumeText content : string) :
  truthy_opt (env !! "GROQ_API_KEY") = true ->
  groq (parser_request (default EmptyString (env !! "GROQ_API_KEY")) resumeText)
    = SdkReturns (Some content) ->
  parseResumeFromText w env groq resumeText
  = (try_catch (parser_body w (SdkReturns (Some content)))
       (fun e => snd (parser_catch w e)),
     [parser_request (default EmptyString (env !! "GROQ_API_KEY")) resumeText]).
Proof.
  intros Hkey Hans. unfold parseResumeFromText.
  rewrite Hkey. cbn [negb]. now rewrite Hans.
Qed.

(** C9. When the decoded response passes the schema check and its
    [contact] is the empty string, the record returned has the sentinel
    ["Not provided"] as its contact and the validated lists unchanged. *)
Theorem C9_empty_contact_replaced (w : Wording) (env : Env) (groq : Provider)
    (resumeText content : string) (members : list (string * json))
    (v : ParsedResume) :
  truthy_opt (env !! "GROQ_API_KEY") = true ->
  groq (parser_request (default EmptyString (env !! "GROQ_API_KEY")) resumeText)
    = SdkReturns (Some content) ->
  JSON.parse content = Some (JObj members) ->
  obj_get "contact" members = Some (JStr EmptyString) ->
  ParsedResumeSchema (JObj members) = inl v ->
  contact v = EmptyString
  /\ fst (parseResumeFromText w env groq resumeText)
     = Return (mkParsedResume (skills v) (experience v) (education v)
                 "Not provided").
Proof.
  intros Hkey Hans Hparse Hcontact Hschema.
  assert (Hc : contact v = EmptyString).
  { apply ParsedResumeSchema_inl in Hschema as (m & Hm & _ & _ & _ & Hc).
    injection Hm as <-. rewrite Hcontact in Hc. now injection Hc as <-. }
  split; [exact Hc |].
  rewrite (parseResumeFromText_answered w env groq resumeText content Hkey Hans).
  cbn [fst]. unfold parser_body.
  rewrite (parse_some_truthy _ _ Hparse). cbn [negb default from_option id].
  rewrite Hparse, Hschema. cbn [try_catch].
  unfold JS.array_or, JS.string_or. now rewrite Hc.
Qed.

Lemma C9_empty_contact_replaced_witness :
  let content :=
    jtext "{'skills':['Python','AWS'],'experience':[],'education':['BS'],'contact':''}" in
  truthy_opt (env_with_groq_key !! "GROQ_API_KEY") = true
  /\ JSON.parse content
     = Some (JObj [("skills", JArr [JStr "Python"; JStr "AWS"]);
                   ("experience", JArr []);
                   ("education", JArr [JStr "BS"]);
                   ("contact", JStr EmptyString)])
  /\ fst (parseResumeFromText sample_wording env_with_groq_key
            (answering content) "Python developer")
     = Return (mkParsedResume ["Python"; "AWS"] [] ["BS"] "Not provided").
Proof.
  intros content.
  split; [reflexivity |]. split; [reflexivity |].
  apply (C9_empty_contact_replaced sample_wording env_with_groq_key
           (answering content) "Python developer" content
           [("skills", JArr [JStr "Python"; JStr "AWS"]);
            ("experience", JArr []);
            ("education", JArr [JStr "BS"]);
            ("contact", JStr EmptyString)]
           (mkParsedResume ["Python"; "AWS"] [] ["BS"] EmptyString));
    reflexivity.
Defined.

Lemma issues_of_ap {A B : Type} (f : Zod.result (A -> B)) (x : Zod.result A) :
  issues_of (Zod.ap f x) = issues_of f ++ issues_of x.
Proof.
  destruct f as [g | xs], x as [a | ys]; cbn; rewrite ?app_nil_r; reflexivity.
Qed.

(** The issues of an object are those of its four properties, in the order
    of the shape. *)
Lemma ParsedResumeSchema_issues (members : list (string * json)) :
  issues_of (ParsedResumeSchema (JObj members))
  = issues_of (Zod.array_of_strings [Zod.PKey "skills"] (obj_get "skills" members))
    ++ issues_of (Zod.array_of_strings [Zod.PKey "experience"]
                    (obj_get "experience" members))
    ++ issues_of (Zod.array_of_strings [Zod.PKey "education"]
                    (obj_get "education" members))
    ++ issues_of (Zod.string_ [Zod.PKey "contact"] (obj_get "contact" members)).
Proof.
  unfold ParsedResumeSchema. cbn [Zod.object_].
  rewrite !issues_of_ap. cbn [issues_of app]. rewrite <- !app_assoc. reflexivity.
Qed.

(** An object that lacks one of the four properties fails
    [ParsedResumeSchema], and each absent property has its issue among the
    issues. *)
Lemma ParsedResumeSchema_missing (members : list (string * json)) :
  obj_get "skills" members = None \/ obj_get "experience" members = None
  \/ obj_get "education" members = None \/ obj_get "contact" members = None ->
  exists issues,
    ParsedResumeSchema (JObj members) = inr issues
    /\ (obj_get "skills" members = None ->
        In (required_issue "array" "skills") issues)
    /\ (obj_get "experience" members = None ->
        In (required_issue "array" "experience") issues)
    /\ (obj_get "education" members = None ->
        In (required_issue "array" "education") issues)
    /\ (obj_get "contact" members = None ->
        In (required_issue "string" "contact") issues).
Proof.
  intros Hmissing.
  pose proof (ParsedResumeSchema_issues members) as Hissues.
  assert (Hin : (obj_get "skills" members = None ->
                 In (required_issue "array" "skills")
                    (issues_of (ParsedResumeSchema (JObj members))))
                /\ (obj_get "experience" members = None ->
                    In (required_issue "array" "experience")
                       (issues_of (ParsedResumeSchema (JObj members))))
                /\ (obj_get "education" members = None ->
                    In (required_issue "array" "education")
                       (issues_of (ParsedResumeSchema (JObj members))))
                /\ (obj_get "contact" members = None ->
                    In (required_issue "string" "contact")
                       (issues_of (ParsedResumeSchema (JObj members))))).
  { rewrite Hissues.
    repeat split; intros H; rewrite H; rewrite !in_app_iff; cbn; auto 10. }
  destruct (ParsedResumeSchema (JObj members)) as [v | issues].
  - cbn [issues_of] in Hin. destruct Hin as (H1 & H2 & H3 & H4).
    destruct Hmissing as [H | [H | [H | H]]];
      [destruct (H1 H) | destruct (H2 H) | destruct (H3 H) | destruct (H4 H)].
  - exists issues. split; [reflexivity | exact Hin].
Qed.

(** C1, as the code has it.  A response that decodes to an object lacking
    one of [skills], [experience], [education], [contact] does not pass
    the schema check: the stage throws the error "Invalid resume structure
    from parser" carrying the issues, and each absent property has its
    issue among them; no default is put in its place. *)
Theorem C1_missing_field_rejected (w : Wording) (env : Env) (groq : Provider)
    (resumeText content : string) (members : list (string * json)) :
  truthy_opt (env !! "GROQ_API_KEY") = true ->
  groq (parser_request (default EmptyString (env !! "GROQ_API_KEY")) resumeText)
    = SdkReturns (Some content) ->
  JSON.parse content = Some (JObj members) ->
  obj_get "skills" members = None \/ obj_get "experience" members = None
  \/ obj_get "education" members = None \/ obj_get "contact" members = None ->
  exists issues,
    fst (parseResumeFromText w env groq resumeText)
    = Throw (newError ("Invalid resume structure from parser: "
                       +:+ zodMessage w issues))
    /\ (obj_get "skills" members = None ->
        In (required_issue "array" "skills") issues)
    /\ (obj_get "experience" members = None ->
        In (required_issue "array" "experience") issues)
    /\ (obj_get "education" members = None ->
        In (required_issue "array" "education") issues)
    /\ (obj_get "contact" members = None ->
        In (required_issue "string" "contact") issues).
Proof.
  intros Hkey Hans Hparse Hmissing.
  destruct (ParsedResumeSchema_missing members Hmissing) as (issues & Hs & Hin).
  exists issues. split; [| exact Hin].
  rewrite (parseResumeFromText_answered w env groq resumeText content Hkey Hans).
  cbn [fst]. unfold parser_body.
  rewrite (parse_some_truthy _ _ Hparse). cbn [negb default from_option id].
  rewrite Hparse, Hs. reflexivity.
Qed.

Lemma C1_missing_field_rejected_witness :
  let content := jtext "{'skills':['Python'],'experience':[]}" in
  let members := [("skills", JArr [JStr "Python"]); ("experience", JArr [])] in
  truthy_opt (env_with_groq_key !! "GROQ_API_KEY") = true
  /\ JSON.parse content = Some (JObj members)
  /\ exists issues,
       fst (parseResumeFromText sample_wording env_with_groq_key
              (answering content) "Python developer")
       = Throw (newError ("Invalid resume structure from parser: "
                          +:+ zodMessage sample_wording issues))
       /\ In (required_issue "array" "education") issues
       /\ In (required_issue "string" "contact") issues.
Proof.
  intros content members.
  split; [reflexivity |]. split; [reflexivity |].
  destruct (C1_missing_field_rejected sample_wording env_with_groq_key
              (answering content) "Python developer" content members)
    as (issues & Hthrow & _ & _ & Heducation & Hcontact);
    [reflexivity | reflexivity | reflexivity
    | right; right; right; reflexivity |].
  exists issues. split; [exact Hthrow |].
  split; [apply Heducation | apply Hcontact]; reflexivity.
Defined.

(** C1, as stated, fails: the response below decodes, lacks [contact], and
    the stage throws instead of returning a record with the sentinel. *)
Lemma C1_counterexample :
  let content := jtext "{'skills':['Python'],'experience':[],'education':[]}" in
  JSON.parse content
  = Some (JObj [("skills", JArr [JStr "Python"]); ("experience", JArr []);
                ("education", JArr [])])
  /\ fst (parseResumeFromText sample_wording env_with_groq_key
            (answering content) "Python developer")
     = Throw (newError ("Invalid resume structure from parser: "
                        +:+ zodMessage sample_wording
                              [required_issue "string" "contact"]))
  /\ fst (parseResumeFromText sample_wording env_with_groq_key
            (answering content) "Python developer")
     <> Return (mkParsedResume ["Python"] [] [] "Not provided").
Proof.
  intros content. split; [reflexivity |]. split; [reflexivity |].
  discriminate.
Qed.

(** ** The match analysis stage *)

Lemma analyzeResume_answered (w : Wording) (env : Env) (groq : Provider)
    (resumeText jobDescription content : string) :
  truthy_opt (env !! "GROQ_API_KEY") = true ->
  groq (groq_request (default EmptyString (env !! "GROQ_API_KEY"))
          resumeText jobDescription)
    = SdkReturns (Some content) ->
  truthy_opt (Some content) = true ->
  analyzeResume w env groq resumeText jobDescription
  = (try_catch (decode_analysis w content) (fun e => snd (groq_catch w e)),
     [groq_request (default EmptyString (env !! "GROQ_API_KEY"))
        resumeText jobDescription]).
Proof.
  intros Hkey Hans Hcontent. unfold analyzeResume.
  rewrite Hkey. cbn [negb]. rewrite Hans. unfold groq_body.
  now rewrite Hcontent.
Qed.

(** A decoded value whose [matchPercentage] is absent, not a number, or a
    number outside [0, 100] fails [AnalysisResultSchema]. *)
Lemma AnalysisResultSchema_bad_percentage (parsed : json) :
  (forall q, matchPercentage_field parsed = Some (JNum q) ->
             ~ (0 <= q /\ q <= 100)%Q) ->
  exists issues, issues <> [] /\ AnalysisResultSchema parsed = inr issues.
Proof.
  intros Hbad.
  destruct (AnalysisResultSchema parsed) as [v | issues] eqn:Hs.
  - exfalso.
    apply AnalysisResultSchema_inl in Hs
      as (members & -> & Hpc & Hlo & Hhi & _).
    exact (Hbad _ Hpc (conj Hlo Hhi)).
  - exists issues. split; [| reflexivity].
    intros ->. revert Hs. unfold AnalysisResultSchema.
    destruct parsed as [| | | | | members |]; cbn [Zod.object_]; try discriminate.
    destruct (Zod.number_min_max 0 100 _ _) as [pc | i1] eqn:H1.
    + apply number_min_max_inl in H1 as (Hpc & Hlo & Hhi).
      exfalso. exact (Hbad _ Hpc (conj Hlo Hhi)).
    + assert (i1 <> []).
      { revert H1. unfold Zod.number_min_max.
        destruct (obj_get "matchPercentage" members) as [[| | x | | | |] |];
          try (intros H; injection H as <-; discriminate).
        destruct (Qle_bool 0 x), (Qle_bool x 100); cbn;
          intros H; try discriminate; injection H as <-; discriminate. }
      destruct (Zod.array_of_strings [Zod.PKey "matchedSkills"] _),
               (Zod.array_of_strings [Zod.PKey "missingSkills"] _),
               (Zod.array_of_strings [Zod.PKey "suggestions"] _);
        cbn [Zod.ap]; intros Hs; injection Hs as Hs;
        repeat (apply app_eq_nil in Hs as [Hs _]); contradiction.
Qed.

(** C2. When the decoded response has a [matchPercentage] that is absent,
    not a number, or outside [0, 100], [analyzeResume] throws the error
    "Invalid response structure from AI" with the issues of the check;
    when the check passes, the validated record is returned as it is, and
    a returned record always carries the decoded percentage itself. *)
Theorem C2_matchPercentage_checked (w : Wording) (env : Env) (groq : Provider)
    (resumeText jobDescription content : string) (parsed : json) :
  truthy_opt (env !! "GROQ_API_KEY") = true ->
  groq (groq_request (default EmptyString (env !! "GROQ_API_KEY"))
          resumeText jobDescription)
    = SdkReturns (Some content) ->
  JSON.parse content = Some parsed ->
  ((forall q, matchPercentage_field parsed = Some (JNum q) ->
              ~ (0 <= q /\ q <= 100)%Q) ->
   exists issues,
     issues <> []
     /\ fst (analyzeResume w env groq resumeText jobDescription)
        = Throw (newError ("Invalid response structure from AI: "
                           +:+ zodMessage w issues)))
  /\ (forall v, AnalysisResultSchema parsed = inl v ->
                fst (analyzeResume w env groq resumeText jobDescription)
                = Return v)
  /\ (forall v, fst (analyzeResume w env groq resumeText jobDescription)
                = Return v ->
                matchPercentage_field parsed = Some (JNum (matchPercentage v))
                /\ (0 <= matchPercentage v)%Q /\ (matchPercentage v <= 100)%Q).
Proof.
  intros Hkey Hans Hparse.
  rewrite (analyzeResume_answered w env groq resumeText jobDescription content
             Hkey Hans (parse_some_truthy _ _ Hparse)).
  cbn [fst]. unfold decode_analysis. rewrite Hparse.
  split; [| split].
  - intros Hbad.
    destruct (AnalysisResultSchema_bad_percentage parsed Hbad)
      as (issues & Hne & ->).
    exists issues. split; [exact Hne | reflexivity].
  - intros v ->. reflexivity.
  - intros v.
    destruct (AnalysisResultSchema parsed) as [v' | issues] eqn:Hs;
      cbn [try_catch]; intros H; [| discriminate].
    injection H as ->.
    apply AnalysisResultSchema_inl in Hs as (members & -> & Hpc & Hlo & Hhi & _).
    cbn [matchPercentage_field]. auto.
Qed.

Lemma C2_matchPercentage_checked_witness :
  let content :=
    jtext "{'matchPercentage':150,'matchedSkills':['Python'],'missingSkills':[],'suggestions':['Add Kubernetes']}" in
  let parsed :=
    JObj [("matchPercentage", JNum (150 # 1)%Q);
          ("matchedSkills", JArr [JStr "Python"]);
          ("missingSkills", JArr []);
          ("suggestions", JArr [JStr "Add Kubernetes"])] in
  truthy_opt (env_with_groq_key !! "GROQ_API_KEY") = true
  /\ JSON.parse content = Some parsed
  /\ (forall q, matchPercentage_field parsed = Some (JNum q) ->
                ~ (0 <= q /\ q <= 100)%Q)
  /\ exists issues,
       issues <> []
       /\ fst (analyzeResume sample_wording env_with_groq_key (answering content)
                 "Skills: Python" "Python and Kubernetes expert")
          = Throw (newError ("Invalid response structure from AI: "
                             +:+ zodMessage sample_wording issues)).
Proof.
  intros content parsed.
  assert (Hbad : forall q, matchPercentage_field parsed = Some (JNum q) ->
                           ~ (0 <= q /\ q <= 100)%Q).
  { intros q Hq. injection Hq as <-. intros [_ Hhi]. revert Hhi.
    vm_compute. intros Hhi. apply Hhi. reflexivity. }
  split; [reflexivity |]. split; [reflexivity |]. split; [exact Hbad |].
  apply (C2_matchPercentage_checked sample_wording env_with_groq_key
           (answering content) "Skills: Python"
           "Python and Kubernetes expert" content parsed);
    [reflexivity | reflexivity | reflexivity | exact Hbad].
Defined.

(** The range is tested on the number the runtime decoded: a literal that
    rounds to 100, or to zero, passes, and one that overflows does not. *)
Example analyzeResume_tests_the_decoded_number :
  fst (analyzeResume sample_wording env_with_groq_key
         (answering (jtext "{'matchPercentage':100.00000000000000001,'matchedSkills':[],'missingSkills':[],'suggestions':[]}"))
         "Skills: Python" "Python expert")
  = Return (mkAnalysisResult 100 [] [] [])
  /\ fst (analyzeResume sample_wording env_with_groq_key
            (answering (jtext "{'matchPercentage':-1e-400,'matchedSkills':[],'missingSkills':[],'suggestions':[]}"))
            "Skills: Python" "Python expert")
     = Return (mkAnalysisResult 0 [] [] [])
  /\ fst (analyzeResume sample_wording env_with_groq_key
            (answering (jtext "{'matchPercentage':1e999,'matchedSkills':[],'missingSkills':[],'suggestions':[]}"))
            "Skills: Python" "Python expert")
     = Throw (newError ("Invalid response structure from AI: "
                        +:+ zodMessage sample_wording
                              [Zod.mkIssue Zod.too_big
                                 [Zod.PKey "matchPercentage"]])).
Proof. vm_compute. repeat split; reflexivity. Qed.

(** ** The routes *)

Lemma length_zero_iff (s : string) :
  Nat.eqb (JS.length s) 0 = true <-> s = EmptyString.
Proof. destruct s; cbn; split; congruence. Qed.

Lemma trim_nonempty_truthy (s : string) :
  JS.trim s <> EmptyString ->
  JS.truthy s = true /\ Nat.eqb (JS.length (JS.trim s)) 0 = false.
Proof.
  intros Hne. split.
  - destruct s; [now contradiction Hne | reflexivity].
  - destruct (Nat.eqb (JS.length (JS.trim s)) 0) eqn:E; [| reflexivity].
    apply length_zero_iff in E. contradiction.
Qed.

(** C10. When the stage returned a resume whose [skills], [experience]
    and [education] are all empty, the parsing route answers with status
    400 and the error "Could not extract meaningful data from resume ..."
    and not with the resume. *)
Theorem C10_empty_resume_rejected (w : Wording) (env : Env) (groq : Provider)
    (extractTextFromPDF : string -> Completion string)
    (resumeFile : File) (resumeText : string) (parsedResume : ParsedResume)
    (submitted : list ChatRequest) :
  file_type resumeFile = "application/pdf" ->
  (file_size resumeFile <= 10 * 1024 * 1024)%N ->
  extractTextFromPDF (file_bytes resumeFile) = Return resumeText ->
  JS.trim resumeText <> EmptyString ->
  parseResumeFromText w env groq resumeText = (Return parsedResume, submitted) ->
  skills parsedResume = [] ->
  experience parsedResume = [] ->
  education parsedResume = [] ->
  parse_resume_POST w env groq extractTextFromPDF (Some resumeFile)
  = (mkResponse 400
       (ErrorBody
          "Could not extract meaningful data from resume. Please ensure the resume contains skills, experience, or education information."),
     submitted).
Proof.
  intros Htype Hsize Hextract Htrim Hstage Hsk Hex Hed.
  unfold parse_resume_POST.
  rewrite Htype, String.eqb_refl. cbn [negb].
  destruct (N.ltb_spec (10 * 1024 * 1024) (file_size resumeFile)) as [Hlt | _];
    [lia |].
  rewrite Hextract.
  destruct (trim_nonempty_truthy resumeText Htrim) as [-> ->]. cbn [negb orb].
  rewrite Hstage, Hsk, Hex, Hed. reflexivity.
Qed.

Lemma C10_empty_resume_rejected_witness :
  let content :=
    jtext "{'skills':[],'experience':[],'education':[],'contact':'jane@example.com'}" in
  let resumeFile := mkFile "application/pdf" 2048 "%PDF-1.4 ..." in
  let extractTextFromPDF := fun _ : string => Return "Jane Doe jane@example.com" in
  JS.trim "Jane Doe jane@example.com" <> EmptyString
  /\ parseResumeFromText sample_wording env_with_groq_key (answering content)
       "Jane Doe jane@example.com"
     = (Return (mkParsedResume [] [] [] "jane@example.com"),
        [parser_request "gsk_test" "Jane Doe jane@example.com"])
  /\ parse_resume_POST sample_wording env_with_groq_key (answering content)
       extractTextFromPDF (Some resumeFile)
     = (mkResponse 400
          (ErrorBody
             "Could not extract meaningful data from resume. Please ensure the resume contains skills, experience, or education information."),
        [parser_request "gsk_test" "Jane Doe jane@example.com"]).
Proof.
  intros content resumeFile extractTextFromPDF.
  split; [discriminate |]. split; [reflexivity |].
  apply (C10_empty_resume_rejected sample_wording env_with_groq_key
           (answering content) extractTextFromPDF resumeFile
           "Jane Doe jane@example.com"
           (mkParsedResume [] [] [] "jane@example.com"));
    try reflexivity; try discriminate.
Defined.

(** C4, as the code has it.  The emptiness tests are made on the way to
    the stages, not by them.  For an upload whose PDF holds no text, or
    white space only, [extractTextFromPDF] throws and the parsing route
    answers 400 with the message of that error; the analysis route answers
    400 when the job description is absent or empty after trimming.  In
    both cases no request has been submitted. *)
Theorem C4_routes_reject_empty_text (w : Wording) (env : Env) (groq : Provider)
    (pdfParse : string -> Completion PdfData)
    (resumeFile : File) (text : option string)
    (parsedResume : option ParsedResume) (jobDescription : option string) :
  file_type resumeFile = "application/pdf" ->
  (file_size resumeFile <= 10 * 1024 * 1024)%N ->
  file_bytes resumeFile <> EmptyString ->
  pdfHeader (file_bytes resumeFile) = "%PDF" ->
  pdfParse (file_bytes resumeFile) = Return (PdfObject text) ->
  JS.trim (default EmptyString text) = EmptyString ->
  JS.trim (default EmptyString jobDescription) = EmptyString ->
  parse_resume_POST w env groq (extractTextFromPDF w pdfParse) (Some resumeFile)
  = (mkResponse 400
       (ErrorBody ("Failed to parse PDF: " +:+ could_not_extract_text)), [])
  /\ resp_status (fst (analyze_POST w env groq parsedResume jobDescription)) = 400
  /\ snd (analyze_POST w env groq parsedResume jobDescription) = []
  /\ (forall r, parsedResume = Some r ->
        analyze_POST w env groq parsedResume jobDescription
        = (mkResponse 400 (ErrorBody "Job description is required"), [])).
Proof.
  intros Htype Hsize Hbytes Hhead Hpdf Htext Hjob.
  split.
  - assert (Hx : extractTextFromPDF w pdfParse (file_bytes resumeFile)
                 = Throw (newError ("Failed to parse PDF: "
                                    +:+ could_not_extract_text))).
    { unfold extractTextFromPDF.
      destruct (file_bytes resumeFile) as [| c rest]; [contradiction |].
      cbn [String.length Nat.eqb]. rewrite Hhead, Hpdf.
      cbn [String.eqb negb]. unfold pdf_body. rewrite Htext.
      cbn [JS.length String.length Nat.eqb]. rewrite orb_true_r.
      reflexivity. }
    unfold parse_resume_POST.
    rewrite Htype, String.eqb_refl. cbn [negb].
    destruct (N.ltb_spec (10 * 1024 * 1024) (file_size resumeFile)) as [Hlt | _];
      [lia |].
    rewrite Hx. reflexivity.
  - assert (Hj : negb (truthy_opt jobDescription)
                 || Nat.eqb (JS.length (JS.trim (default EmptyString jobDescription))) 0
                 = true).
    { rewrite Hjob. cbn [JS.length String.length Nat.eqb]. apply orb_true_r. }
    unfold analyze_POST. destruct parsedResume as [r |].
    + rewrite Hj.
      split; [reflexivity | split; [reflexivity | intros r' _; reflexivity]].
    + split; [reflexivity | split; [reflexivity | intros r' Hr; discriminate Hr]].
Qed.

Lemma C4_routes_reject_empty_text_witness :
  let resumeFile := mkFile "application/pdf" 2048 "%PDF-1.4 scanned" in
  let parsedResume := Some (mkParsedResume ["Python"] [] [] "jane@example.com") in
  let content :=
    jtext "{'matchPercentage':70,'matchedSkills':[],'missingSkills':[],'suggestions':[]}" in
  JS.trim "   " = EmptyString
  /\ parse_resume_POST sample_wording env_with_groq_key (answering content)
       (extractTextFromPDF sample_wording (pdf_with_text "   "))
       (Some resumeFile)
     = (mkResponse 400
          (ErrorBody ("Failed to parse PDF: " +:+ could_not_extract_text)), [])
  /\ analyze_POST sample_wording env_with_groq_key (answering content)
       parsedResume (Some "   ")
     = (mkResponse 400 (ErrorBody "Job description is required"), []).
Proof.
  intros resumeFile parsedResume content.
  split; [reflexivity |].
  destruct (C4_routes_reject_empty_text sample_wording env_with_groq_key
              (answering content) (pdf_with_text "   ") resumeFile (Some "   ")
              parsedResume (Some "   ")) as (Hparse & _ & _ & Hanalyze);
    try reflexivity; try discriminate.
  split; [exact Hparse | exact (Hanalyze _ eq_refl)].
Defined.

(** C4, as stated, fails: with the credential set, each stage submits its
    request for a text that is empty after trimming, and returns what the
    provider answered. *)
Lemma C4_counterexample :
  JS.trim "  " = EmptyString
  /\ parseResumeFromText sample_wording env_with_groq_key
       (answering (jtext "{'skills':[],'experience':[],'education':[],'contact':'n/a'}"))
       "  "
     = (Return (mkParsedResume [] [] [] "n/a"), [parser_request "gsk_test" "  "])
  /\ analyzeResume sample_wording env_with_groq_key
       (answering (jtext "{'matchPercentage':0,'matchedSkills':[],'missingSkills':[],'suggestions':[]}"))
       EmptyString "  "
     = (Return (mkAnalysisResult (0 # 1)%Q [] [] []),
        [groq_request "gsk_test" EmptyString "  "])
  /\ snd (analyze_POST sample_wording env_with_groq_key
            (answering (jtext "{'matchPercentage':0,'matchedSkills':[],'missingSkills':[],'suggestions':[]}"))
            (Some (mkParsedResume [] [] [] "jane@example.com"))
            (Some "Python expert"))
     = [groq_request "gsk_test" EmptyString "Python expert"].
Proof. repeat split. Qed.


(** ** Fence stripping *)

Lemma append_cons (c : ascii) (s r : string) :
  String c s +:+ r = String c (s +:+ r).
Proof. reflexivity. Qed.

Lemma append_nil_l (r : string) : EmptyString +:+ r = r.
Proof. reflexivity. Qed.

Lemma append_assoc (s r t : string) : (s +:+ r) +:+ t = s +:+ (r +:+ t).
Proof.
  induction s as [| c s IH]; [reflexivity |].
  rewrite !append_cons. now rewrite IH.
Qed.

Lemma append_length (s r : string) :
  String.length (s +:+ r) = String.length s + String.length r.
Proof.
  induction s as [| c s IH]; [reflexivity |].
  rewrite append_cons. cbn [String.length]. now rewrite IH.
Qed.

Lemma trimStart_head (c : ascii) (s : string) :
  JS.is_whitespace c = false -> JS.trimStart (String c s) = String c s.
Proof. intros H. cbn [JS.trimStart]. now rewrite H. Qed.

Lemma trimEnd_append (s r : string) :
  JS.trimEnd r <> EmptyString -> JS.trimEnd (s +:+ r) = s +:+ JS.trimEnd r.
Proof.
  intros Hr. induction s as [| c s IH]; [reflexivity |].
  rewrite !append_cons. cbn [JS.trimEnd]. rewrite IH.
  destruct (s +:+ JS.trimEnd r) eqn:E; [| reflexivity].
  destruct s; [| discriminate E]. now rewrite append_nil_l in E.
Qed.

(** Trimming leaves a fenced payload as it is. *)
Lemma trim_fence_json (payload : string) :
  JS.trim (fence_json payload) = fence_json payload.
Proof.
  unfold JS.trim, fence_json.
  change ("```json" +:+ JS.LF +:+ payload +:+ JS.LF +:+ "```")
    with (String "`" ("``json" +:+ JS.LF +:+ payload +:+ JS.LF +:+ "```")).
  rewrite trimStart_head by reflexivity.
  change (String "`" ("``json" +:+ JS.LF +:+ payload +:+ JS.LF +:+ "```"))
    with ("```json" +:+ JS.LF +:+ payload +:+ JS.LF +:+ "```").
  rewrite <- !append_assoc.
  rewrite trimEnd_append; [reflexivity | discriminate].
Qed.

Lemma replace_closing_fence_append (payload : string) :
  replace_closing_fence (payload +:+ JS.LF +:+ "```") = payload.
Proof.
  induction payload as [| c s IH]; [reflexivity |].
  rewrite append_cons. cbn [replace_closing_fence].
  assert (Hlen : String.length (String c (s +:+ JS.LF +:+ "```"))
                 = 5 + String.length s).
  { cbn [String.length]. rewrite !append_length.
    change (String.length JS.LF) with 1. change (String.length "```") with 3.
    lia. }
  destruct (String.eqb_spec (String c (s +:+ JS.LF +:+ "```")) (JS.LF +:+ "```"))
    as [E | _].
  { rewrite E in Hlen. change (String.length (JS.LF +:+ "```")) with 4 in Hlen.
    lia. }
  destruct (String.eqb_spec (String c (s +:+ JS.LF +:+ "```")) "```")
    as [E | _].
  { rewrite E in Hlen. change (String.length "```") with 3 in Hlen. lia. }
  cbn [orb]. now rewrite IH.
Qed.

(** The fences of [fence_json] are exactly what the two replacements
    remove. *)
Lemma strip_code_fences_fence_json (payload : string) :
  strip_code_fences (fence_json payload) = payload.
Proof.
  unfold strip_code_fences. rewrite trim_fence_json.
  unfold fence_json.
  change (JS.startsWith ("```json" +:+ JS.LF +:+ payload +:+ JS.LF +:+ "```")
            "```json") with true.
  cbn iota.
  change (replace_opening_fence "```json"
            ("```json" +:+ JS.LF +:+ payload +:+ JS.LF +:+ "```"))
    with (payload +:+ JS.LF +:+ "```").
  apply replace_closing_fence_append.
Qed.


(** White space before the opening fence and after the closing one is
    trimmed first. *)
Lemma trimStart_padding (pad s : string) :
  JS.trim pad = EmptyString -> JS.trimStart (pad +:+ s) = JS.trimStart s.
Proof.
  induction pad as [| c pad IH]; [reflexivity |].
  unfold JS.trim. cbn [JS.trimStart]. rewrite append_cons. cbn [JS.trimStart].
  destruct (JS.is_whitespace c) eqn:Hc; [exact IH |].
  cbn [JS.trimEnd]. rewrite Hc. destruct (JS.trimEnd pad); discriminate.
Qed.

Lemma trim_empty_trimEnd (pad : string) :
  JS.trim pad = EmptyString -> JS.trimEnd pad = EmptyString.
Proof.
  unfold JS.trim. induction pad as [| c pad IH]; [reflexivity |].
  cbn [JS.trimStart JS.trimEnd].
  destruct (JS.is_whitespace c) eqn:Hc.
  - intros H. now rewrite (IH H).
  - cbn [JS.trimEnd]. rewrite Hc. destruct (JS.trimEnd pad); discriminate.
Qed.

Lemma trimEnd_padding (s pad : string) :
  JS.trim pad = EmptyString -> JS.trimEnd (s +:+ pad) = JS.trimEnd s.
Proof.
  intros Hpad. induction s as [| c s IH].
  - now apply trim_empty_trimEnd.
  - rewrite append_cons. cbn [JS.trimEnd]. now rewrite IH.
Qed.

Lemma strip_code_fences_padded (before payload after : string) :
  JS.trim before = EmptyString -> JS.trim after = EmptyString ->
  strip_code_fences (before +:+ fence_json payload +:+ after) = payload.
Proof.
  intros Hb Ha.
  assert (Ht : JS.trim (before +:+ fence_json payload +:+ after)
               = JS.trim (fence_json payload)).
  { unfold JS.trim. rewrite (trimStart_padding _ _ Hb).
    assert (Hs : forall x, JS.trimStart (fence_json payload +:+ x)
                           = fence_json payload +:+ x) by reflexivity.
    rewrite Hs, (trimEnd_padding _ _ Ha). reflexivity. }
  rewrite <- (strip_code_fences_fence_json payload) at 2.
  unfold strip_code_fences. now rewrite Ht.
Qed.

(** ** White space around a JSON text *)

(** The seven code units [trim] removes. *)
Lemma is_whitespace_cases (c : ascii) :
  JS.is_whitespace c = true ->
  c = ascii_of_nat 9 \/ c = ascii_of_nat 10 \/ c = ascii_of_nat 11
  \/ c = ascii_of_nat 12 \/ c = ascii_of_nat 13 \/ c = ascii_of_nat 32
  \/ c = ascii_of_nat 160.
Proof.
  destruct c as [[] [] [] [] [] [] [] []]; vm_compute; intros H;
    try discriminate H; auto 10.
Qed.

Ltac whitespace_cases H :=
  apply is_whitespace_cases in H;
  destruct H as [-> | [-> | [-> | [-> | [-> | [-> | ->]]]]]].

(** Before the value, a character that [trim] removes is skipped by the
    recogniser as well, or refused. *)
Lemma step_init_whitespace (c : ascii) (s : JSON.state) :
  JS.is_whitespace c = true ->
  JSON.step JSON.init c = Some s -> s = JSON.init.
Proof.
  intros Hc. whitespace_cases Hc; vm_compute; intros H;
    try discriminate H; now injection H as <-.
Qed.

Lemma run_trimStart (text : string) (s : JSON.state) :
  JSON.run JSON.init text = Some s ->
  JSON.run JSON.init (JS.trimStart text) = Some s.
Proof.
  induction text as [| c text IH]; [trivial |].
  cbn [JS.trimStart]. destruct (JS.is_whitespace c) eqn:Hc; [| trivial].
  cbn [JSON.run]. destruct (JSON.step JSON.init c) as [s' |] eqn:Hs;
    [| discriminate].
  apply step_init_whitespace in Hs; [| exact Hc]. subst s'. exact IH.
Qed.

(** After a character that [trim] removes, the input is complete only if
    it was complete before it, with the same value. *)
Lemma finish_after_whitespace (c : ascii) (s s' : JSON.state) (v : json) :
  JS.is_whitespace c = true ->
  JSON.step s c = Some s' ->
  JSON.finish s' = Some v ->
  JSON.finish s = Some v.
Proof.
  intros Hc Hstep Hfin. destruct s as [stack m].
  destruct m as [first | first | | | d | is_key racc ph | ph a | l seen].
  - (* expecting a value *)
    whitespace_cases Hc; cbn in Hstep; try discriminate Hstep;
      injection Hstep as <-; destruct stack; discriminate Hfin.
  - whitespace_cases Hc; cbn in Hstep; try discriminate Hstep;
      injection Hstep as <-; destruct stack; discriminate Hfin.
  - whitespace_cases Hc; cbn in Hstep; try discriminate Hstep;
      injection Hstep as <-; destruct stack; discriminate Hfin.
  - whitespace_cases Hc; cbn in Hstep; try discriminate Hstep;
      try (injection Hstep as <-; destruct stack; discriminate Hfin);
      destruct stack as [| [acc | acc [k |]] rest]; discriminate Hstep.
  - whitespace_cases Hc; cbn in Hstep; try discriminate Hstep;
      injection Hstep as <-; exact Hfin.
  - destruct ph as [| | k acc];
      whitespace_cases Hc; cbn in Hstep; try discriminate Hstep;
      try (injection Hstep as <-; destruct stack; discriminate Hfin).
  - destruct ph;
      whitespace_cases Hc; cbn in Hstep; try discriminate Hstep;
      destruct stack as [| [acc | acc [k |]] rest]; cbn in Hstep;
      try discriminate Hstep; injection Hstep as <-;
      try discriminate Hfin; exact Hfin.
  - destruct l; do 6 (try destruct seen as [| seen]);
      whitespace_cases Hc; cbn in Hstep; discriminate Hstep.
Qed.


Lemma run_trimEnd (text : string) :
  forall (s s' : JSON.state) (v : json),
    JSON.run s text = Some s' ->
    JSON.finish s' = Some v ->
    exists s'', JSON.run s (JS.trimEnd text) = Some s''
                /\ JSON.finish s'' = Some v.
Proof.
  induction text as [| c text IH]; intros s s' v Hrun Hfin.
  - exists s'. split; assumption.
  - cbn [JSON.run] in Hrun.
    destruct (JSON.step s c) as [s1 |] eqn:Hstep; [| discriminate Hrun].
    destruct (IH s1 s' v Hrun Hfin) as (s2 & Hrun2 & Hfin2).
    cbn [JS.trimEnd]. destruct (JS.trimEnd text) as [| c' r] eqn:Hr.
    + cbn [JSON.run] in Hrun2. injection Hrun2 as <-.
      destruct (JS.is_whitespace c) eqn:Hc.
      * exists s. split; [reflexivity |].
        exact (finish_after_whitespace c s s1 v Hc Hstep Hfin2).
      * exists s1. cbn [JSON.run]. rewrite Hstep. split; [reflexivity | exact Hfin2].
    + exists s2. cbn [JSON.run]. rewrite Hstep. split; [exact Hrun2 | exact Hfin2].
Qed.

(** [JSON.parse] gives the same value on a JSON text and on the text
    trimmed. *)
Lemma parse_trim (text : string) (v : json) :
  JSON.parse text = Some v -> JSON.parse (JS.trim text) = Some v.
Proof.
  unfold JSON.parse, JS.trim. intros H.
  destruct (JSON.run JSON.init text) as [s |] eqn:Hrun; [| discriminate H].
  apply run_trimStart in Hrun.
  destruct (run_trimEnd _ _ _ _ Hrun H) as (s'' & -> & Hfin). exact Hfin.
Qed.

(** A JSON text does not begin with a backtick. *)
Lemma parse_not_fenced (text : string) (v : json) :
  JSON.parse text = Some v ->
  JS.startsWith text "```json" = false /\ JS.startsWith text "```" = false.
Proof.
  unfold JSON.parse. destruct text as [| c rest]; [discriminate |].
  cbn [JSON.run]. intros H.
  destruct (ascii_dec c "`") as [-> | Hne]; [discriminate H |].
  unfold JS.startsWith. cbn [String.prefix].
  destruct (ascii_dec "`" c) as [E | _]; [now subst | now split].
Qed.

(** A text that begins with a code fence is not a JSON text. *)
Lemma parse_fenced_fails (text : string) :
  JS.startsWith text "```" = true -> JSON.parse text = None.
Proof.
  intros H. destruct (JSON.parse text) as [v |] eqn:E; [| reflexivity].
  apply parse_not_fenced in E as [_ E]. congruence.
Qed.

Lemma strip_code_fences_json (text : string) (v : json) :
  JSON.parse text = Some v -> strip_code_fences text = JS.trim text.
Proof.
  intros H. apply parse_trim, parse_not_fenced in H as [H1 H2].
  unfold strip_code_fences. now rewrite H1, H2.
Qed.

(** C7. For every JSON text, the text between [```json] fences and the
    text as it is both decode, after fence stripping, to the value the
    text denotes; the Gemini variant, which is the one that strips fences,
    does the same on both. *)
Theorem C7_fence_stripping_decodes_alike (w : Wording) (payload : string)
    (v : json) :
  JSON.parse payload = Some v ->
  JSON.parse (strip_code_fences (fence_json payload)) = Some v
  /\ JSON.parse (strip_code_fences payload) = Some v
  /\ gemini_body w (SdkReturns (Some (fence_json payload)))
     = gemini_body w (SdkReturns (Some payload)).
Proof.
  intros H.
  assert (H1 : JSON.parse (strip_code_fences (fence_json payload)) = Some v)
    by now rewrite strip_code_fences_fence_json.
  assert (H2 : JSON.parse (strip_code_fences payload) = Some v).
  { rewrite (strip_code_fences_json payload v H). now apply parse_trim. }
  split; [exact H1 |]. split; [exact H2 |].
  unfold gemini_body.
  rewrite (parse_some_truthy _ _ H).
  change (truthy_opt (Some (fence_json payload))) with true.
  cbn [negb default from_option id]. now rewrite H1, H2.
Qed.

Lemma C7_fence_stripping_decodes_alike_witness :
  let payload :=
    jtext " {'matchPercentage': 70, 'matchedSkills': ['Python'], 'missingSkills': ['Kubernetes'], 'suggestions': []} " in
  let v :=
    JObj [("matchPercentage", JNum (70 # 1)%Q);
          ("matchedSkills", JArr [JStr "Python"]);
          ("missingSkills", JArr [JStr "Kubernetes"]);
          ("suggestions", JArr [])] in
  JSON.parse payload = Some v
  /\ JSON.parse (strip_code_fences (fence_json payload)) = Some v
  /\ JSON.parse (strip_code_fences payload) = Some v
  /\ gemini_body sample_wording (SdkReturns (Some (fence_json payload)))
     = gemini_body sample_wording (SdkReturns (Some payload)).
Proof.
  intros payload v. split; [reflexivity |].
  apply (C7_fence_stripping_decodes_alike sample_wording payload v).
  reflexivity.
Defined.


(** C3, as the code has it.  [parseResumeFromText] gives the payload to
    [JSON.parse] as it was received: a payload that begins with a code
    fence does not decode, and the stage throws what its handler makes of
    the error "Failed to parse JSON response: ...", which is that error
    itself unless its text passes one of the handler's message tests.
    Stripping is done by the Gemini variant of [analyzeResume] only, where
    a JSON text between [```json] fences decodes to the value of the
    text. *)
Theorem C3_parser_keeps_fences (w : Wording) (env : Env) (groq : Provider)
    (resumeText content : string) :
  truthy_opt (env !! "GROQ_API_KEY") = true ->
  groq (parser_request (default EmptyString (env !! "GROQ_API_KEY")) resumeText)
    = SdkReturns (Some content) ->
  JS.startsWith content "```" = true ->
  let failure := "Failed to parse JSON response: " +:+ syntaxErrorMessage w content in
  fst (parseResumeFromText w env groq resumeText)
    = Throw (snd (parser_catch w (newError failure)))
  /\ (mentions_rate_limit failure = false ->
      mentions_authentication failure = false ->
      fst (parseResumeFromText w env groq resumeText) = Throw (newError failure))
  /\ (forall payload v,
        JSON.parse payload = Some v ->
        JSON.parse (strip_code_fences (fence_json payload)) = Some v).
Proof.
  intros Hkey Hans Hfence failure.
  assert (Hrun : fst (parseResumeFromText w env groq resumeText)
                 = Throw (snd (parser_catch w (newError failure)))).
  { rewrite (parseResumeFromText_answered w env groq resumeText content Hkey Hans).
    cbn [fst]. unfold parser_body.
    assert (Hne : truthy_opt (Some content) = true)
      by (destruct content; [discriminate Hfence | reflexivity]).
    rewrite Hne. cbn [negb default from_option id].
    now rewrite (parse_fenced_fails content Hfence). }
  split; [exact Hrun |]. split.
  - intros Hrate Hauth. rewrite Hrun.
    unfold parser_catch, newError, message_or_empty.
    cbn [err_message default from_option id].
    fold failure. rewrite Hrate, Hauth. now rewrite !andb_false_r.
  - intros payload v H. now rewrite strip_code_fences_fence_json.
Qed.

Lemma C3_parser_keeps_fences_witness :
  let content :=
    fence_json (jtext "{'skills':['Python'],'experience':[],'education':[],'contact':'a@b.c'}") in
  let failure := "Failed to parse JSON response: Unexpected token in JSON" in
  truthy_opt (env_with_groq_key !! "GROQ_API_KEY") = true
  /\ JS.startsWith content "```" = true
  /\ fst (parseResumeFromText sample_wording env_with_groq_key
            (answering content) "Python developer")
     = Throw (snd (parser_catch sample_wording (newError failure)))
  /\ (mentions_rate_limit failure = false ->
      mentions_authentication failure = false ->
      fst (parseResumeFromText sample_wording env_with_groq_key
             (answering content) "Python developer")
      = Throw (newError failure))
  /\ (forall payload v,
        JSON.parse payload = Some v ->
        JSON.parse (strip_code_fences (fence_json payload)) = Some v).
Proof.
  intros content failure.
  split; [reflexivity |]. split; [reflexivity |].
  apply (C3_parser_keeps_fences sample_wording env_with_groq_key
           (answering content) "Python developer" content);
    reflexivity.
Defined.

(** C3, as stated, fails: the payload below is a JSON text of the right
    shape between [```json] fences, and the extraction stage fails on it
    with the decoding error. *)
Lemma C3_counterexample :
  let payload :=
    jtext "{'skills':['Python'],'experience':[],'education':[],'contact':'a@b.c'}" in
  fst (parseResumeFromText sample_wording env_with_groq_key
         (answering payload) "Python developer")
  = Return (mkParsedResume ["Python"] [] [] "a@b.c")
  /\ fst (parseResumeFromText sample_wording env_with_groq_key
            (answering (fence_json payload)) "Python developer")
     = Throw (newError "Failed to parse JSON response: Unexpected token in JSON").
Proof. split; reflexivity. Qed.


(** ** Classification of provider errors *)

Example openai_other_status :
  openai_catch sample_wording
    (ThrownObject (mkErrorObject true (Some (Some 503%Z)) (Some "Service unavailable")))
  = (UpstreamError, newError "OpenAI API error (503): Service unavailable").
Proof. reflexivity. Qed.

Example groq_unauthorized_text :
  groq_catch sample_wording
    (ThrownObject (mkErrorObject true (Some (Some 401%Z)) (Some "401 Invalid API Key")))
  = (AuthenticationError, newError groq_authentication_failed).
Proof. reflexivity. Qed.

Example gemini_model_not_found :
  fst (gemini_catch sample_wording
         (newError "[404 Not Found] models/gemini-1.5-flash is not found for API version v1beta"))
  = ModelUnavailable.
Proof. reflexivity. Qed.

(** A rejected credential, a rate limit and prose instead of JSON, from
    the SDK call to what the Groq stage throws. *)
Example groq_unauthorized_end_to_end :
  analyzeResume sample_wording env_with_groq_key
    (failing (ThrownObject
                (mkErrorObject true (Some (Some 401%Z)) (Some "401 Invalid API Key"))))
    "Skills: Python" "Python expert"
  = (Throw (newError groq_authentication_failed),
     [groq_request "gsk_test" "Skills: Python" "Python expert"]).
Proof. reflexivity. Qed.

Example groq_rate_limit_end_to_end :
  fst (analyzeResume sample_wording env_with_groq_key
         (failing (ThrownObject
                     (mkErrorObject true (Some (Some 429%Z))
                        (Some "429 Rate limit reached for model"))))
         "Skills: Python" "Python expert")
  = Throw (newError groq_rate_limited).
Proof. reflexivity. Qed.

Example groq_prose_end_to_end :
  fst (analyzeResume sample_wording env_with_groq_key
         (answering "Sure! Here is the analysis you asked for.")
         "Skills: Python" "Python expert")
  = Throw (newError "Failed to parse JSON response: Unexpected token in JSON").
Proof. reflexivity. Qed.







(** * Further properties of the code *)

(** ** What the stages return and throw *)

(** What a returned resume is: the credential was set, the provider
    answered the one request with a content, and the resume is the
    validated record of the decoded content, with the sentinel in place of
    an empty contact. *)
Lemma parseResumeFromText_returns (w : Wording) (env : Env) (groq : Provider)
    (resumeText : string) (r : ParsedResume) :
  fst (parseResumeFromText w env groq resumeText) = Return r ->
  exists content parsed v,
    truthy_opt (env !! "GROQ_API_KEY") = true
    /\ groq (parser_request (default EmptyString (env !! "GROQ_API_KEY")) resumeText)
       = SdkReturns (Some content)
    /\ JSON.parse content = Some parsed
    /\ ParsedResumeSchema parsed = inl v
    /\ r = mkParsedResume (skills v) (experience v) (education v)
             (JS.string_or (contact v) "Not provided").
Proof.
  unfold parseResumeFromText.
  destruct (truthy_opt (env !! "GROQ_API_KEY")); cbn [negb fst];
    [| discriminate].
  unfold parser_body.
  destruct (groq _) as [[content |] | e]; cbn [truthy_opt negb];
    [| discriminate | discriminate].
  destruct (JS.truthy content); cbn [negb]; [| discriminate].
  cbn [default from_option id].
  destruct (JSON.parse content) as [parsed |] eqn:Hparse; [| discriminate].
  destruct (ParsedResumeSchema parsed) as [v | issues] eqn:Hschema;
    [| discriminate].
  cbn [try_catch]. intros H. injection H as <-.
  exists content, parsed, v. auto.
Qed.

(** X1. A resume that [parseResumeFromText] returns comes from the content
    the provider answered the stage's request with: that content decodes
    to an object whose [skills], [experience] and [education] are the
    arrays of strings of the resume, and whose [contact] is a string, the
    resume's contact unless it is empty; the contact of the resume is
    never empty. *)
Theorem X1_returned_contact_nonempty (w : Wording) (env : Env) (groq : Provider)
    (resumeText : string) (r : ParsedResume) :
  fst (parseResumeFromText w env groq resumeText) = Return r ->
  contact r <> EmptyString
  /\ exists content members c,
       groq (parser_request (default EmptyString (env !! "GROQ_API_KEY"))
               resumeText)
       = SdkReturns (Some content)
       /\ JSON.parse content = Some (JObj members)
       /\ obj_get "skills" members = Some (JArr (map JStr (skills r)))
       /\ obj_get "experience" members = Some (JArr (map JStr (experience r)))
       /\ obj_get "education" members = Some (JArr (map JStr (education r)))
       /\ obj_get "contact" members = Some (JStr c)
       /\ contact r = (if String.eqb c EmptyString then "Not provided" else c).
Proof.
  intros H.
  apply parseResumeFromText_returns in H
    as (content & parsed & v & _ & Hg & Hp & Hs & ->).
  cbn [contact skills experience education]. split.
  - unfold JS.string_or. destruct (contact v); discriminate.
  - apply ParsedResumeSchema_inl in Hs as (members & -> & Hsk & Hex & Hed & Hc).
    exists content, members, (contact v).
    repeat (split; [assumption |]).
    unfold JS.string_or. destruct (contact v); reflexivity.
Qed.

Lemma X1_returned_contact_nonempty_witness :
  let content :=
    jtext "{'skills':['Go'],'experience':[],'education':[],'contact':''}" in
  fst (parseResumeFromText sample_wording env_with_groq_key (answering content)
         "Go developer")
  = Return (mkParsedResume ["Go"] [] [] "Not provided")
  /\ "Not provided" <> EmptyString.
Proof.
  intros content. split; [reflexivity |].
  apply (X1_returned_contact_nonempty sample_wording env_with_groq_key
           (answering content) "Go developer"
           (mkParsedResume ["Go"] [] [] "Not provided") eq_refl).
Defined.

(** Each handler throws an [Error] object. *)
Lemma parser_catch_throws_Error (w : Wording) (t : Thrown) :
  exists e, snd (parser_catch w t) = ThrownObject e /\ err_isError e = true.
Proof.
  unfold parser_catch, newError. repeat case_match; cbn [snd]; eauto.
Qed.

Lemma groq_catch_throws_Error (w : Wording) (t : Thrown) :
  exists e, snd (groq_catch w t) = ThrownObject e /\ err_isError e = true.
Proof.
  unfold groq_catch, newError. repeat case_match; cbn [snd]; eauto.
Qed.

Lemma openai_catch_throws_Error (w : Wording) (t : Thrown) :
  exists e, snd (openai_catch w t) = ThrownObject e /\ err_isError e = true.
Proof.
  unfold openai_catch, newError. repeat case_match; cbn [snd]; eauto.
Qed.

Lemma gemini_catch_throws_Error (w : Wording) (t : Thrown) :
  exists e, snd (gemini_catch w t) = ThrownObject e /\ err_isError e = true.
Proof.
  unfold gemini_catch, newError. repeat case_match; cbn [snd]; eauto.
Qed.

Lemma try_catch_throw {A : Type} (body : Completion A) (h : Thrown -> Thrown)
    (t : Thrown) :
  try_catch body h = Throw t -> exists t0, t = h t0.
Proof. destruct body; cbn; intros H; [discriminate | injection H as <-; eauto]. Qed.

(** X2. Whatever the provider does, a stage that fails throws an [Error]
    object: never the provider's own non-[Error] value, and never the
    [ZodError]. *)
Theorem X2_stages_throw_Errors (w : Wording) (env : Env) (provider : Provider)
    (resumeText jobDescription : string) (t : Thrown) :
  fst (parseResumeFromText w env provider resumeText) = Throw t
  \/ fst (analyzeResume w env provider resumeText jobDescription) = Throw t
  \/ fst (analyzeResume_openai w env provider resumeText jobDescription) = Throw t
  \/ fst (analyzeResume_gemini w env provider resumeText jobDescription) = Throw t ->
  exists e, t = ThrownObject e /\ err_isError e = true.
Proof.
  unfold parseResumeFromText, analyzeResume, analyzeResume_openai,
    analyzeResume_gemini.
  intros [H | [H | [H | H]]];
    match type of H with
    | context [truthy_opt ?k] => destruct (truthy_opt k)
    end; cbn [negb fst] in H;
    try (injection H as <-; unfold newError; eauto; fail);
    apply try_catch_throw in H as [t0 ->].
  - apply parser_catch_throws_Error.
  - apply groq_catch_throws_Error.
  - apply openai_catch_throws_Error.
  - apply gemini_catch_throws_Error.
Qed.

Lemma X2_stages_throw_Errors_witness :
  fst (analyzeResume sample_wording env_with_groq_key (failing ThrownPrimitive)
         "Skills: Go" "Go expert")
  = Throw (newError "Unknown error occurred during AI analysis")
  /\ exists e, newError "Unknown error occurred during AI analysis" = ThrownObject e
               /\ err_isError e = true.
Proof.
  split; [reflexivity |].
  apply (X2_stages_throw_Errors sample_wording env_with_groq_key
           (failing ThrownPrimitive) "Skills: Go" "Go expert"
           (newError "Unknown error occurred during AI analysis")).
  right; left. reflexivity.
Defined.

(** ** What the schemas accept *)

Lemma strings_from_map (p : list Zod.path_elem) (l : list string) :
  forall i, Zod.strings_from p i (map JStr l) = inl l.
Proof.
  induction l as [| s l IH]; intros i; [reflexivity |].
  cbn [map Zod.strings_from Zod.string_]. now rewrite IH.
Qed.

Lemma array_of_strings_map (p : list Zod.path_elem) (l : list string) :
  Zod.array_of_strings p (Some (JArr (map JStr l))) = inl l.
Proof. apply strings_from_map. Qed.

Lemma number_min_max_in_range (lo hi : Q) (p : list Zod.path_elem) (q : Q) :
  (lo <= q)%Q -> (q <= hi)%Q ->
  Zod.number_min_max lo hi p (Some (JNum q)) = inl q.
Proof.
  intros Hlo Hhi. unfold Zod.number_min_max.
  apply Qle_bool_iff in Hlo, Hhi. now rewrite Hlo, Hhi.
Qed.

(** X4. [ParsedResumeSchema] accepts a decoded value exactly when it is an
    object whose [skills], [experience] and [education] are arrays of
    strings and whose [contact] is a string, and the record it gives holds
    those values. *)
Theorem X4_ParsedResumeSchema_accepts_exactly (parsed : json) (v : ParsedResume) :
  ParsedResumeSchema parsed = inl v
  <-> exists members,
        parsed = JObj members
        /\ obj_get "skills" members = Some (JArr (map JStr (skills v)))
        /\ obj_get "experience" members = Some (JArr (map JStr (experience v)))
        /\ obj_get "education" members = Some (JArr (map JStr (education v)))
        /\ obj_get "contact" members = Some (JStr (contact v)).
Proof.
  split; [apply ParsedResumeSchema_inl |].
  intros (members & -> & Hsk & Hex & Hed & Hc).
  unfold ParsedResumeSchema. cbn [Zod.object_].
  rewrite Hsk, Hex, Hed, Hc, !array_of_strings_map.
  destruct v; reflexivity.
Qed.

(** X5. [AnalysisResultSchema] accepts a decoded value exactly when it is
    an object whose [matchPercentage] is a number between 0 and 100, both
    included, and whose three lists are arrays of strings. *)
Theorem X5_AnalysisResultSchema_accepts_exactly (parsed : json)
    (v : AnalysisResult) :
  AnalysisResultSchema parsed = inl v
  <-> exists members,
        parsed = JObj members
        /\ obj_get "matchPercentage" members = Some (JNum (matchPercentage v))
        /\ (0 <= matchPercentage v)%Q /\ (matchPercentage v <= 100)%Q
        /\ obj_get "matchedSkills" members = Some (JArr (map JStr (matchedSkills v)))
        /\ obj_get "missingSkills" members = Some (JArr (map JStr (missingSkills v)))
        /\ obj_get "suggestions" members = Some (JArr (map JStr (suggestions v))).
Proof.
  split; [apply AnalysisResultSchema_inl |].
  intros (members & -> & Hpc & Hlo & Hhi & Hma & Hmi & Hsu).
  unfold AnalysisResultSchema. cbn [Zod.object_].
  rewrite Hpc, Hma, Hmi, Hsu, !array_of_strings_map.
  rewrite (number_min_max_in_range _ _ _ _ Hlo Hhi).
  destruct v; reflexivity.
Qed.

Example percentage_bounds_included :
  AnalysisResultSchema
    (JObj [("matchPercentage", JNum 0); ("matchedSkills", JArr []);
           ("missingSkills", JArr []); ("suggestions", JArr [])])
  = inl (mkAnalysisResult 0 [] [] [])
  /\ AnalysisResultSchema
       (JObj [("matchPercentage", JNum 100); ("matchedSkills", JArr []);
              ("missingSkills", JArr []); ("suggestions", JArr [])])
     = inl (mkAnalysisResult 100 [] [] []).
Proof. split; reflexivity. Qed.

Lemma obj_get_other (k k' : string) (x : json) (members : list (string * json)) :
  k <> k' -> obj_get k ((k', x) :: members) = obj_get k members.
Proof.
  intros Hne. cbn [obj_get]. destruct (obj_get k members); [reflexivity |].
  now destruct (String.eqb_spec k k').
Qed.

(** X6. A property that is not one of the four of the shape changes the
    outcome of neither schema check. *)
Theorem X6_unknown_keys_ignored (k : string) (x : json)
    (members : list (string * json)) :
  (k <> "skills" /\ k <> "experience" /\ k <> "education" /\ k <> "contact" ->
   ParsedResumeSchema (JObj ((k, x) :: members))
   = ParsedResumeSchema (JObj members))
  /\ (k <> "matchPercentage" /\ k <> "matchedSkills" /\ k <> "missingSkills"
      /\ k <> "suggestions" ->
      AnalysisResultSchema (JObj ((k, x) :: members))
      = AnalysisResultSchema (JObj members)).
Proof.
  split; intros (H1 & H2 & H3 & H4);
    unfold ParsedResumeSchema, AnalysisResultSchema; cbn [Zod.object_];
    now rewrite !obj_get_other by congruence.
Qed.

Lemma X6_unknown_keys_ignored_witness :
  ParsedResumeSchema
    (JObj [("name", JStr "Jane"); ("skills", JArr []); ("experience", JArr []);
           ("education", JArr []); ("contact", JStr "x")])
  = ParsedResumeSchema
      (JObj [("skills", JArr []); ("experience", JArr []);
             ("education", JArr []); ("contact", JStr "x")]).
Proof.
  destruct (X6_unknown_keys_ignored "name" (JStr "Jane")
              [("skills", JArr []); ("experience", JArr []);
               ("education", JArr []); ("contact", JStr "x")]) as [H _].
  apply H. repeat split; discriminate.
Defined.


(** ** Failures inside the [try] block *)

(** X7. When the provider's completion has no content, or an empty one,
    each Groq stage throws its "No response content" error, after the one
    request. *)
Theorem X7_no_content (w : Wording) (env : Env) (groq : Provider)
    (rawText resumeText jobDescription : string) (content : option string) :
  truthy_opt (env !! "GROQ_API_KEY") = true ->
  (forall request, groq request = SdkReturns content) ->
  truthy_opt content = false ->
  fst (parseResumeFromText w env groq rawText)
    = Throw (newError "No response content from resume parser")
  /\ fst (analyzeResume w env groq resumeText jobDescription)
    = Throw (newError "No response content from Groq").
Proof.
  intros Hkey Hans Hempty. unfold parseResumeFromText, analyzeResume.
  rewrite Hkey. cbn [negb fst]. rewrite !Hans.
  unfold parser_body, groq_body. rewrite Hempty. split; reflexivity.
Qed.

Lemma X7_no_content_witness :
  truthy_opt (env_with_groq_key !! "GROQ_API_KEY") = true
  /\ fst (parseResumeFromText sample_wording env_with_groq_key
            (fun _ => SdkReturns None) "Go developer")
     = Throw (newError "No response content from resume parser")
  /\ fst (analyzeResume sample_wording env_with_groq_key
            (fun _ => SdkReturns None) "Skills: Go" "Go expert")
     = Throw (newError "No response content from Groq").
Proof.
  split; [reflexivity |].
  apply (X7_no_content sample_wording env_with_groq_key
           (fun _ => SdkReturns None) "Go developer" "Skills: Go" "Go expert"
           None); reflexivity.
Defined.



(** ** The handlers *)

(** X9. The second rate-limit test of the Groq handler of [groq.ts] never
    decides: its message is thrown for no value, from the provider or from
    the [try] block. *)
Theorem X9_groq_second_rate_test_dead (w : Wording) (t : Thrown) :
  snd (groq_catch w t)
  <> newError ("Groq API rate limit exceeded. Free tier allows 14,400 requests per day. "
               +:+ "Please wait a moment and try again.").
Proof.
  unfold groq_catch. destruct t as [issues | e |]; cbn [snd];
    [discriminate | | discriminate].
  destruct (has_message e && mentions_rate_limit (message_or_empty e)) eqn:H1;
    cbn [snd]; [discriminate |].
  destruct (has_message e && mentions_authentication (message_or_empty e));
    cbn [snd]; [discriminate |].
  destruct (err_isError e) eqn:Herr; cbn [snd]; [| discriminate].
  assert (Hm : has_message e = true) by (unfold has_message; now rewrite Herr).
  rewrite Hm in H1. cbn [andb] in H1. rewrite H1. cbn [snd].
  intros H. unfold newError in H. injection H as ->.
  discriminate H1.
Qed.

(** X10. The two Groq handlers give the same kind to every thrown value. *)
Theorem X10_groq_handlers_agree (w : Wording) (t : Thrown) :
  fst (parser_catch w t) = fst (groq_catch w t).
Proof.
  unfold parser_catch, groq_catch. destruct t as [issues | e |]; try reflexivity.
  destruct (has_message e && mentions_rate_limit (message_or_empty e)) eqn:H1;
    [reflexivity |].
  destruct (has_message e && mentions_authentication (message_or_empty e));
    [reflexivity |].
  destruct (err_isError e) eqn:Herr; [| reflexivity].
  assert (Hm : has_message e = true) by (unfold has_message; now rewrite Herr).
  rewrite Hm in H1. cbn [andb] in H1. now rewrite H1.
Qed.

(** ** The three variants of the analysis stage *)

(** X11. On the same content that is a JSON text passing the schema
    check, the Groq, the OpenAI and the Gemini variant return the same
    record. *)
Theorem X11_variants_agree (w : Wording) (env : Env)
    (groq openai gemini : Provider)
    (resumeText jobDescription content : string) (parsed : json)
    (v : AnalysisResult) :
  truthy_opt (env !! "GROQ_API_KEY") = true ->
  truthy_opt (env !! "OPENAI_API_KEY") = true ->
  truthy_opt (env !! "GEMINI_API_KEY") = true ->
  (forall request, groq request = SdkReturns (Some content)) ->
  (forall request, openai request = SdkReturns (Some content)) ->
  (forall request, gemini request = SdkReturns (Some content)) ->
  JSON.parse content = Some parsed ->
  AnalysisResultSchema parsed = inl v ->
  fst (analyzeResume w env groq resumeText jobDescription) = Return v
  /\ fst (analyzeResume_openai w env openai resumeText jobDescription) = Return v
  /\ fst (analyzeResume_gemini w env gemini resumeText jobDescription) = Return v.
Proof.
  intros Hg Ho Hm Ag Ao Am Hparse Hschema.
  pose proof (parse_some_truthy _ _ Hparse) as Ht.
  unfold analyzeResume, analyzeResume_openai, analyzeResume_gemini.
  rewrite Hg, Ho, Hm. cbn [negb fst]. rewrite Ag, Ao, Am.
  unfold groq_body, openai_body, gemini_body, decode_analysis.
  rewrite Ht. cbn [negb default from_option id].
  rewrite (strip_code_fences_json content parsed Hparse).
  rewrite (parse_trim content parsed Hparse), Hparse, Hschema.
  repeat split.
Qed.

Lemma X11_variants_agree_witness :
  let env : Env :=
    {[ "GROQ_API_KEY" := "k1"; "OPENAI_API_KEY" := "k2"; "GEMINI_API_KEY" := "k3" ]} in
  let content :=
    jtext " {'matchPercentage':55.5,'matchedSkills':['Go'],'missingSkills':[],'suggestions':[]} " in
  let v := mkAnalysisResult (111 # 2) ["Go"] [] [] in
  fst (analyzeResume sample_wording env (answering content) "Skills: Go" "Go expert")
    = Return v
  /\ fst (analyzeResume_openai sample_wording env (answering content)
            "Skills: Go" "Go expert") = Return v
  /\ fst (analyzeResume_gemini sample_wording env (answering content)
            "Skills: Go" "Go expert") = Return v.
Proof.
  intros env content v.
  apply (X11_variants_agree sample_wording env (answering content)
           (answering content) (answering content) "Skills: Go" "Go expert"
           content
           (JObj [("matchPercentage", JNum (111 # 2));
                  ("matchedSkills", JArr [JStr "Go"]);
                  ("missingSkills", JArr []); ("suggestions", JArr [])]) v);
    reflexivity.
Defined.

(** ** Fences without a language tag *)

Lemma trim_plain_fence (payload : string) :
  JS.trim ("```" +:+ JS.LF +:+ payload +:+ JS.LF +:+ "```")
  = "```" +:+ JS.LF +:+ payload +:+ JS.LF +:+ "```".
Proof.
  unfold JS.trim.
  change (JS.trimStart ("```" +:+ JS.LF +:+ payload +:+ JS.LF +:+ "```"))
    with ("```" +:+ JS.LF +:+ payload +:+ JS.LF +:+ "```").
  rewrite <- !append_assoc.
  rewrite trimEnd_append; [reflexivity | discriminate].
Qed.

(** X12. The Gemini variant also removes fences that carry no language
    tag: a payload between two lines of three backticks is given to
    [JSON.parse] as it is, whatever the payload. *)
Theorem X12_plain_fences_stripped (payload : string) :
  strip_code_fences ("```" +:+ JS.LF +:+ payload +:+ JS.LF +:+ "```") = payload.
Proof.
  unfold strip_code_fences. rewrite trim_plain_fence.
  change (JS.startsWith ("```" +:+ JS.LF +:+ payload +:+ JS.LF +:+ "```")
            "```json") with false.
  change (JS.startsWith ("```" +:+ JS.LF +:+ payload +:+ JS.LF +:+ "```")
            "```") with true.
  cbn iota.
  change (replace_opening_fence "```"
            ("```" +:+ JS.LF +:+ payload +:+ JS.LF +:+ "```"))
    with (payload +:+ JS.LF +:+ "```").
  apply replace_closing_fence_append.
Qed.


(** ** The formatter and the two routes together *)

Lemma join_head_nonempty (c : ascii) (x : string) (rest : list string)
    (sep : string) :
  JS.join (String c x :: rest) sep <> EmptyString.
Proof. destruct rest; cbn [JS.join]; [| rewrite append_cons]; discriminate. Qed.

Lemma startsWith_append (p y : string) : JS.startsWith (p +:+ y) p = true.
Proof.
  unfold JS.startsWith. induction p as [| c p IH].
  - now destruct y.
  - rewrite append_cons. cbn [String.prefix].
    now destruct (ascii_dec c c).
Qed.

Lemma format_empty_lists (r : ParsedResume) :
  formatResumeForAnalysis r = EmptyString
  <-> skills r = [] /\ experience r = [] /\ education r = [].
Proof.
  destruct r as [sk ex ed c].
  unfold formatResumeForAnalysis, skills_section, experience_section,
    education_section.
  cbn [skills experience education].
  split.
  - destruct sk, ex, ed; cbn [List.length Nat.ltb Nat.leb app];
      intros H; try (repeat split; reflexivity);
      exfalso; revert H;
      repeat match goal with
             | |- context [?a +:+ ?b] =>
                 match a with
                 | String _ _ => rewrite (append_cons _ _ b)
                 end
             end; apply join_head_nonempty.
  - intros (-> & -> & ->). reflexivity.
Qed.

(** X13. The formatted text is empty exactly when the resume has no
    skills, no experience and no education; otherwise it begins with the
    heading of its first non-empty section. *)
Theorem X13_format_empty_iff (r : ParsedResume) :
  (formatResumeForAnalysis r = EmptyString
   <-> skills r = [] /\ experience r = [] /\ education r = [])
  /\ (skills r <> [] -> JS.startsWith (formatResumeForAnalysis r) "Skills: " = true)
  /\ (skills r = [] -> experience r <> [] ->
      JS.startsWith (formatResumeForAnalysis r) "Experience:" = true)
  /\ (skills r = [] -> experience r = [] -> education r <> [] ->
      JS.startsWith (formatResumeForAnalysis r) "Education:" = true).
Proof.
  split; [apply format_empty_lists |].
  destruct r as [sk ex ed c].
  unfold formatResumeForAnalysis, skills_section, experience_section,
    education_section.
  cbn [skills experience education].
  repeat split.
  - intros Hsk. destruct sk as [| s sk]; [contradiction |].
    destruct ex, ed; cbn [List.length Nat.ltb Nat.leb app JS.join];
      rewrite ?append_assoc; apply startsWith_append.
  - intros -> Hex. destruct ex as [| e ex]; [contradiction |].
    destruct ed; cbn [List.length Nat.ltb Nat.leb app JS.join];
      rewrite ?append_assoc; apply startsWith_append.
  - intros -> -> Hed. destruct ed as [| d ed]; [contradiction |].
    cbn [List.length Nat.ltb Nat.leb app JS.join];
      rewrite ?append_assoc; apply startsWith_append.
Qed.

(** What a 200 answer of the parsing route says about the stage. *)
Lemma parse_route_200 (w : Wording) (env : Env) (groq : Provider)
    (extractTextFromPDF : string -> Completion string)
    (resumeFile : option File) :
  resp_status (fst (parse_resume_POST w env groq extractTextFromPDF resumeFile))
    = 200 ->
  exists resumeText r,
    parseResumeFromText w env groq resumeText
      = (Return r, snd (parse_resume_POST w env groq extractTextFromPDF resumeFile))
    /\ resp_body (fst (parse_resume_POST w env groq extractTextFromPDF resumeFile))
       = ResumeBody r
    /\ ~ (skills r = [] /\ experience r = [] /\ education r = []).
Proof.
  unfold parse_resume_POST.
  destruct resumeFile as [f |]; [| discriminate].
  destruct (negb _); [discriminate |].
  destruct (N.ltb _ _); [discriminate |].
  destruct (extractTextFromPDF _) as [text | e]; [| discriminate].
  destruct (_ || _); [discriminate |].
  destruct (parseResumeFromText w env groq text) as [[r | e] sub] eqn:Hstage;
    [| discriminate].
  destruct (Nat.eqb (List.length (skills r)) 0
            && Nat.eqb (List.length (experience r)) 0
            && Nat.eqb (List.length (education r)) 0) eqn:Hall;
    [discriminate |].
  intros _. exists text, r. cbn [fst snd resp_body].
  split; [exact Hstage |]. split; [reflexivity |].
  intros (Hs & He & Hd). rewrite Hs, He, Hd in Hall. discriminate Hall.
Qed.

(** X14. A resume that the parsing route answered with status 200 is
    accepted by the analysis route: with a job description that is not
    blank, the route formats it to a non-empty text and calls the stage on
    that text, so its answer is not a 400. *)
Theorem X14_parsed_resume_accepted (w : Wording) (env env' : Env)
    (groq groq' : Provider)
    (extractTextFromPDF : string -> Completion string)
    (resumeFile : option File) (r : ParsedResume) (jobDescription : string) :
  resp_status (fst (parse_resume_POST w env groq extractTextFromPDF resumeFile))
    = 200 ->
  resp_body (fst (parse_resume_POST w env groq extractTextFromPDF resumeFile))
    = ResumeBody r ->
  JS.trim jobDescription <> EmptyString ->
  formatResumeForAnalysis r <> EmptyString
  /\ snd (analyze_POST w env' groq' (Some r) (Some jobDescription))
     = snd (analyzeResume w env' groq' (formatResumeForAnalysis r) jobDescription)
  /\ resp_status (fst (analyze_POST w env' groq' (Some r) (Some jobDescription)))
     <> 400.
Proof.
  intros H200 Hbody Hjob.
  destruct (parse_route_200 _ _ _ _ _ H200) as (text & r' & Hstage & Hb & Hne).
  rewrite Hbody in Hb. injection Hb as <-.
  assert (Hc : contact r <> EmptyString).
  { assert (Hr : fst (parseResumeFromText w env groq text) = Return r)
      by now rewrite Hstage.
    apply parseResumeFromText_returns in Hr as (? & ? & v & _ & _ & _ & _ & ->).
    cbn [contact]. unfold JS.string_or. destruct (contact v); discriminate. }
  split; [now rewrite format_empty_lists |].
  unfold analyze_POST.
  destruct (trim_nonempty_truthy jobDescription Hjob) as [Ht Hl].
  cbn [truthy_opt default from_option id]. rewrite Ht, Hl. cbn [negb orb].
  unfold array_missing. cbn [orb].
  assert (Htc : JS.truthy (contact r) = true)
    by (destruct (contact r); [contradiction | reflexivity]).
  rewrite Htc. cbn [negb].
  destruct (analyzeResume w env' groq' (formatResumeForAnalysis r) jobDescription)
    as [[a | e] sub]; cbn [fst snd resp_status]; split; try reflexivity;
    discriminate.
Qed.


Lemma X14_parsed_resume_accepted_witness :
  let content :=
    jtext "{'skills':['Go'],'experience':[],'education':[],'contact':''}" in
  let file := mkFile "application/pdf" 2048 "%PDF-1.4 ..." in
  let extract := fun _ : string => Return "Jane Doe, Go developer" in
  let r := mkParsedResume ["Go"] [] [] "Not provided" in
  fst (parse_resume_POST sample_wording env_with_groq_key (answering content)
         extract (Some file))
  = mkResponse 200 (ResumeBody r)
  /\ formatResumeForAnalysis r <> EmptyString
  /\ snd (analyze_POST sample_wording env_with_groq_key (failing ThrownPrimitive)
            (Some r) (Some "Go expert"))
     = snd (analyzeResume sample_wording env_with_groq_key (failing ThrownPrimitive)
              (formatResumeForAnalysis r) "Go expert")
  /\ resp_status (fst (analyze_POST sample_wording env_with_groq_key
                         (failing ThrownPrimitive) (Some r) (Some "Go expert")))
     <> 400.
Proof.
  intros content file extract r. split; [reflexivity |].
  apply (X14_parsed_resume_accepted sample_wording env_with_groq_key
           env_with_groq_key (answering content) (failing ThrownPrimitive)
           extract (Some file) r "Go expert");
    [reflexivity | reflexivity | discriminate].
Defined.

(** ** What the routes answer *)

Lemma analyzeResume_returns (w : Wording) (env : Env) (groq : Provider)
    (resumeText jobDescription : string) (a : AnalysisResult) :
  fst (analyzeResume w env groq resumeText jobDescription) = Return a ->
  exists content parsed,
    JSON.parse content = Some parsed /\ AnalysisResultSchema parsed = inl a.
Proof.
  unfold analyzeResume.
  destruct (truthy_opt (env !! "GROQ_API_KEY")); cbn [negb fst];
    [| discriminate].
  unfold groq_body, decode_analysis.
  destruct (groq _) as [content | e]; [| discriminate].
  destruct (truthy_opt content); cbn [negb]; [| discriminate].
  destruct (JSON.parse _) as [parsed |] eqn:Hparse; [| discriminate].
  destruct (AnalysisResultSchema parsed) as [v | issues] eqn:Hschema;
    [| discriminate].
  cbn [try_catch]. intros H. injection H as <-. eauto.
Qed.

(** X15. The parsing route answers with status 200, 400 or 500.  A 200
    carries a resume that the stage returned, with a non-empty list and a
    non-empty contact, after exactly one request; a 400 or 500 carries an
    error text. *)
Theorem X15_parse_route_answers (w : Wording) (env : Env) (groq : Provider)
    (extractTextFromPDF : string -> Completion string)
    (resumeFile : option File) :
  let answer := parse_resume_POST w env groq extractTextFromPDF resumeFile in
  (resp_status (fst answer) = 200
   /\ (exists r,
         resp_body (fst answer) = ResumeBody r
         /\ ~ (skills r = [] /\ experience r = [] /\ education r = [])
         /\ contact r <> EmptyString)
   /\ length (snd answer) = 1)
  \/ ((resp_status (fst answer) = 400 \/ resp_status (fst answer) = 500)
      /\ exists error, resp_body (fst answer) = ErrorBody error).
Proof.
  intros answer.
  destruct (Nat.eq_dec (resp_status (fst answer)) 200) as [H200 | Hne].
  - left. split; [exact H200 |].
    destruct (parse_route_200 _ _ _ _ _ H200) as (text & r & Hstage & Hb & Hl).
    fold answer in Hstage, Hb. split.
    + exists r. split; [exact Hb |]. split; [exact Hl |].
      assert (Hr : fst (parseResumeFromText w env groq text) = Return r)
        by now rewrite Hstage.
      apply parseResumeFromText_returns in Hr as (? & ? & v & _ & _ & _ & _ & ->).
      cbn [contact]. unfold JS.string_or. destruct (contact v); discriminate.
    + assert (Hs : snd (parseResumeFromText w env groq text) = snd answer)
        by now rewrite Hstage.
      rewrite <- Hs.
      assert (Hr : fst (parseResumeFromText w env groq text) = Return r)
        by now rewrite Hstage.
      revert Hr. unfold parseResumeFromText.
      destruct (truthy_opt _); cbn [negb fst snd]; [reflexivity | discriminate].
  - right. revert Hne. subst answer. unfold parse_resume_POST.
    destruct resumeFile as [f |]; cbn [fst resp_status resp_body]; [| eauto].
    destruct (negb _); cbn [fst resp_status resp_body]; [eauto |].
    destruct (N.ltb _ _); cbn [fst resp_status resp_body]; [eauto |].
    destruct (extractTextFromPDF _) as [text | e];
      cbn [fst resp_status resp_body]; [| eauto].
    destruct (_ || _); cbn [fst resp_status resp_body]; [eauto |].
    destruct (parseResumeFromText w env groq text) as [[r | e] sub];
      cbn [fst resp_status resp_body]; [| eauto].
    destruct (_ && _); cbn [fst resp_status resp_body]; [eauto |].
    intros H. now contradiction H.
Qed.

(** X16. The analysis route answers with status 200, 400 or 500.  A 200
    carries an analysis whose percentage is between 0 and 100, after
    exactly one request; a 400 is answered before any request. *)
Theorem X16_analyze_route_answers (w : Wording) (env : Env) (groq : Provider)
    (parsedResume : option ParsedResume) (jobDescription : option string) :
  let answer := analyze_POST w env groq parsedResume jobDescription in
  (resp_status (fst answer) = 200
   /\ (exists a,
         resp_body (fst answer) = AnalysisBody a
         /\ (0 <= matchPercentage a)%Q /\ (matchPercentage a <= 100)%Q)
   /\ length (snd answer) = 1)
  \/ (resp_status (fst answer) = 400 /\ snd answer = []
      /\ exists error, resp_body (fst answer) = ErrorBody error)
  \/ (resp_status (fst answer) = 500
      /\ exists error, resp_body (fst answer) = ErrorBody error).
Proof.
  intros answer. subst answer. unfold analyze_POST.
  destruct parsedResume as [r |]; [| right; left; cbn; eauto].
  destruct (_ || _); [right; left; cbn; eauto |].
  destruct (_ || _); [right; left; cbn; eauto |].
  destruct (analyzeResume w env groq (formatResumeForAnalysis r)
              (default EmptyString jobDescription)) as [[a | e] sub] eqn:Hstage.
  - left. cbn [fst snd resp_status resp_body]. split; [reflexivity |].
    assert (Hr : fst (analyzeResume w env groq (formatResumeForAnalysis r)
                        (default EmptyString jobDescription)) = Return a)
      by now rewrite Hstage.
    split.
    + apply analyzeResume_returns in Hr as (content & parsed & _ & Hs).
      apply AnalysisResultSchema_inl in Hs as (m & _ & _ & Hlo & Hhi & _).
      eauto.
    + assert (Hs : snd (analyzeResume w env groq (formatResumeForAnalysis r)
                          (default EmptyString jobDescription)) = sub)
        by now rewrite Hstage.
      rewrite <- Hs. revert Hr. unfold analyzeResume.
      destruct (truthy_opt _); cbn [negb fst snd]; [reflexivity | discriminate].
  - right; right. cbn. eauto.
Qed.


(** ** The PDF text extractor *)

Lemma trimStart_shape (s : string) :
  JS.trimStart s = EmptyString
  \/ exists c r, JS.trimStart s = String c r /\ JS.is_whitespace c = false.
Proof.
  induction s as [| c s IH]; [now left |].
  cbn [JS.trimStart]. destruct (JS.is_whitespace c) eqn:Hc; [exact IH |].
  right. eauto.
Qed.

Lemma trimEnd_idempotent (s : string) : JS.trimEnd (JS.trimEnd s) = JS.trimEnd s.
Proof.
  induction s as [| c s IH]; [reflexivity |].
  cbn [JS.trimEnd]. destruct (JS.trimEnd s) as [| c' r] eqn:Hr.
  - destruct (JS.is_whitespace c) eqn:Hc; [reflexivity |].
    cbn [JS.trimEnd]. now rewrite Hc.
  - cbn [JS.trimEnd] in *. now rewrite IH.
Qed.

Lemma trimEnd_head (c : ascii) (s : string) :
  JS.is_whitespace c = false ->
  exists r, JS.trimEnd (String c s) = String c r.
Proof.
  intros Hc. cbn [JS.trimEnd]. destruct (JS.trimEnd s); rewrite ?Hc; eauto.
Qed.

(** [trim] does nothing to a trimmed text. *)
Lemma trim_idempotent (s : string) : JS.trim (JS.trim s) = JS.trim s.
Proof.
  unfold JS.trim.
  destruct (trimStart_shape s) as [-> | (c & r & -> & Hc)]; [reflexivity |].
  destruct (trimEnd_head c r Hc) as (r' & Hr). rewrite Hr.
  rewrite (trimStart_head c r' Hc), <- Hr. apply trimEnd_idempotent.
Qed.

(** What a returned text is: the trimmed text of the object [pdfParse]
    resolved to. *)
Lemma extractTextFromPDF_returns (w : Wording)
    (pdfParse : string -> Completion PdfData) (fileBuffer text : string) :
  extractTextFromPDF w pdfParse fileBuffer = Return text ->
  exists t,
    pdfParse fileBuffer = Return (PdfObject (Some t))
    /\ text = JS.trim t /\ JS.trim t <> EmptyString.
Proof.
  unfold extractTextFromPDF.
  destruct (Nat.eqb _ 0); [discriminate |].
  destruct (negb _); [discriminate |].
  unfold pdf_body. destruct (pdfParse fileBuffer) as [[| [t |]] | e];
    cbn [try_catch]; try discriminate.
  cbn [default from_option id].
  destruct (negb (JS.truthy t) || Nat.eqb (JS.length (JS.trim t)) 0) eqn:H;
    [discriminate |].
  intros E. injection E as <-.
  apply orb_false_iff in H as [_ H]. exists t.
  split; [reflexivity |]. split; [reflexivity |].
  intros E. rewrite E in H. discriminate H.
Qed.

(** X17. A text that [extractTextFromPDF] returns is the trimmed text of
    what [pdfParse] gave: it is not empty and has no white space at either
    end. *)
Theorem X17_extracted_text_trimmed (w : Wording)
    (pdfParse : string -> Completion PdfData) (fileBuffer text : string) :
  extractTextFromPDF w pdfParse fileBuffer = Return text ->
  text <> EmptyString /\ JS.trim text = text.
Proof.
  intros H. apply extractTextFromPDF_returns in H as (t & _ & -> & Hne).
  split; [exact Hne | apply trim_idempotent].
Qed.

Lemma X17_extracted_text_trimmed_witness :
  extractTextFromPDF sample_wording (pdf_with_text "  Jane Doe
Go developer  ") "%PDF-1.7 ..."
  = Return "Jane Doe
Go developer"
  /\ "Jane Doe
Go developer" <> EmptyString
  /\ JS.trim "Jane Doe
Go developer" = "Jane Doe
Go developer".
Proof.
  split; [reflexivity |].
  apply (X17_extracted_text_trimmed sample_wording
           (pdf_with_text "  Jane Doe
Go developer  ") "%PDF-1.7 ...").
  reflexivity.
Defined.

Lemma toString_ascii_length (s : string) :
  String.length (toString_ascii s) = String.length s.
Proof. induction s as [| c s IH]; [reflexivity | cbn; now rewrite IH]. Qed.

(** X18. A buffer of fewer than four bytes is refused as an invalid PDF
    file, and [pdfParse] has no part in the answer. *)
Theorem X18_short_buffer_refused (w : Wording)
    (pdfParse : string -> Completion PdfData) (fileBuffer : string) :
  String.length fileBuffer < 4 ->
  extractTextFromPDF w pdfParse fileBuffer
  = Throw (newError
             (if Nat.eqb (String.length fileBuffer) 0
              then "Invalid PDF file: File buffer is empty or undefined"
              else "Invalid PDF file: File does not appear to be a valid PDF")).
Proof.
  intros Hlen. unfold extractTextFromPDF.
  destruct (Nat.eqb (String.length fileBuffer) 0); [reflexivity |].
  destruct (String.eqb_spec (pdfHeader fileBuffer) "%PDF") as [E | _];
    [| reflexivity].
  exfalso. apply (f_equal String.length) in E.
  unfold pdfHeader in E. rewrite toString_ascii_length in E.
  destruct fileBuffer as [| a [| b [| c [| d rest]]]]; cbn in E, Hlen;
    try discriminate E. lia.
Qed.

Lemma X18_short_buffer_refused_witness :
  String.length "%PD" < 4
  /\ extractTextFromPDF sample_wording (pdf_with_text "Jane Doe") "%PD"
     = Throw (newError "Invalid PDF file: File does not appear to be a valid PDF").
Proof.
  split; [cbn; lia |].
  apply (X18_short_buffer_refused sample_wording (pdf_with_text "Jane Doe") "%PD").
  cbn; lia.
Defined.

(** The messages of the errors [extractTextFromPDF] throws. *)
Lemma extractTextFromPDF_throws (w : Wording)
    (pdfParse : string -> Completion PdfData) (fileBuffer : string) (t : Thrown) :
  extractTextFromPDF w pdfParse fileBuffer = Throw t ->
  exists msg,
    t = newError msg
    /\ (JS.startsWith msg "Invalid PDF file" = true
        \/ JS.startsWith msg "PDF parsing failed: " = true
        \/ JS.startsWith msg "This PDF is password-protected" = true
        \/ JS.startsWith msg "Failed to parse PDF: " = true).
Proof.
  unfold extractTextFromPDF.
  destruct (Nat.eqb _ 0);
    [intros H; injection H as <-; eexists; split; [reflexivity | now left] |].
  destruct (negb _);
    [intros H; injection H as <-; eexists; split; [reflexivity | now left] |].
  intros H. apply try_catch_throw in H as [t0 ->].
  unfold pdf_catch.
  assert (Hknown : forall m,
    exists msg,
      (if JS.includes m "Cannot read properties of undefined"
          || JS.includes m "reading '0'" || JS.includes m "Cannot read property"
       then newError pdf_not_supported
       else if JS.includes m "Invalid PDF" || JS.includes m "invalid PDF"
       then newError "Invalid PDF file format. Please ensure the file is a valid PDF document."
       else if JS.includes m "Password required" || JS.includes m "password"
       then newError "This PDF is password-protected. Please remove the password and try again."
       else newError ("Failed to parse PDF: " +:+ m)) = newError msg
      /\ (JS.startsWith msg "Invalid PDF file" = true
          \/ JS.startsWith msg "PDF parsing failed: " = true
          \/ JS.startsWith msg "This PDF is password-protected" = true
          \/ JS.startsWith msg "Failed to parse PDF: " = true)).
  { intros m. repeat case_match; eexists; (split; [reflexivity |]);
      [right; left | left | right; right; left | right; right; right];
      try reflexivity. apply startsWith_append. }
  destruct t0 as [issues | e |]; [apply Hknown | | ].
  - destruct (err_isError e); [apply Hknown |].
    eexists; split; [reflexivity | right; right; right; reflexivity].
  - eexists; split; [reflexivity | right; right; right; reflexivity].
Qed.

(** X19. Every failure of [extractTextFromPDF] is an [Error] built by the
    function itself, whose message begins with one of four fixed texts;
    the error [pdfParse] threw is never passed on as it is. *)
Theorem X19_extractor_errors (w : Wording)
    (pdfParse : string -> Completion PdfData) (fileBuffer : string) (t : Thrown) :
  extractTextFromPDF w pdfParse fileBuffer = Throw t ->
  exists msg,
    t = newError msg
    /\ msg <> EmptyString
    /\ (JS.startsWith msg "Invalid PDF file" = true
        \/ JS.startsWith msg "PDF parsing failed: " = true
        \/ JS.startsWith msg "This PDF is password-protected" = true
        \/ JS.startsWith msg "Failed to parse PDF: " = true).
Proof.
  intros H. apply extractTextFromPDF_throws in H as (msg & -> & Hmsg).
  exists msg. split; [reflexivity |]. split; [| exact Hmsg].
  intros ->. destruct Hmsg as [H | [H | [H | H]]]; discriminate H.
Qed.

Lemma X19_extractor_errors_witness :
  let pdfParse := fun _ : string => Throw (newError "bad XRef entry") in
  extractTextFromPDF sample_wording pdfParse "%PDF-1.7 ..."
  = Throw (newError "Failed to parse PDF: bad XRef entry")
  /\ exists msg,
       newError "Failed to parse PDF: bad XRef entry" = newError msg
       /\ msg <> EmptyString
       /\ (JS.startsWith msg "Invalid PDF file" = true
           \/ JS.startsWith msg "PDF parsing failed: " = true
           \/ JS.startsWith msg "This PDF is password-protected" = true
           \/ JS.startsWith msg "Failed to parse PDF: " = true).
Proof.
  intros pdfParse. split; [reflexivity |].
  apply (X19_extractor_errors sample_wording pdfParse "%PDF-1.7 ...").
  reflexivity.
Defined.

(** X20. When [pdfParse] gives no text, or a text of white space only,
    the error thrown inside the [try] block goes through the handler: the
    message is "Failed to parse PDF: " followed by the text about PDFs
    without extractable text. *)
Theorem X20_no_text (w : Wording) (pdfParse : string -> Completion PdfData)
    (fileBuffer : string) (t : option string) :
  fileBuffer <> EmptyString ->
  pdfHeader fileBuffer = "%PDF" ->
  pdfParse fileBuffer = Return (PdfObject t) ->
  JS.trim (default EmptyString t) = EmptyString ->
  extractTextFromPDF w pdfParse fileBuffer
  = Throw (newError ("Failed to parse PDF: " +:+ could_not_extract_text)).
Proof.
  intros Hne Hhead Hparse Htext. unfold extractTextFromPDF.
  destruct fileBuffer as [| c rest]; [contradiction |].
  cbn [String.length Nat.eqb]. rewrite Hhead, Hparse.
  cbn [String.eqb negb]. unfold pdf_body. rewrite Htext.
  cbn [JS.length String.length Nat.eqb]. rewrite orb_true_r.
  reflexivity.
Qed.

Lemma X20_no_text_witness :
  extractTextFromPDF sample_wording (pdf_with_text "   ") "%PDF-1.7 scanned"
  = Throw (newError ("Failed to parse PDF: " +:+ could_not_extract_text)).
Proof.
  apply (X20_no_text sample_wording (pdf_with_text "   ") "%PDF-1.7 scanned"
           (Some "   "));
    [discriminate | reflexivity | reflexivity | reflexivity].
Defined.

(** X21. With [extractTextFromPDF] as its extractor, the parsing route
    never gives its own answer for an empty text: the extractor has
    refused such a text before, with another message. *)
Theorem X21_route_empty_text_test_dead (w : Wording) (env : Env)
    (groq : Provider) (pdfParse : string -> Completion PdfData)
    (resumeFile : option File) :
  fst (parse_resume_POST w env groq (extractTextFromPDF w pdfParse) resumeFile)
  <> mkResponse 400 (ErrorBody could_not_extract_text).
Proof.
  unfold parse_resume_POST.
  destruct resumeFile as [f |]; [| discriminate].
  destruct (negb _); [discriminate |].
  destruct (N.ltb _ _); [discriminate |].
  destruct (extractTextFromPDF w pdfParse (file_bytes f)) as [text | e] eqn:Hx.
  - apply extractTextFromPDF_returns in Hx as (t & _ & -> & Hne).
    assert (Ht : JS.trim (JS.trim t) <> EmptyString)
      by now rewrite trim_idempotent.
    destruct (trim_nonempty_truthy (JS.trim t) Ht) as [-> ->]. cbn [negb orb].
    destruct (parseResumeFromText w env groq (JS.trim t)) as [[r | t'] sub];
      [| discriminate].
    destruct (_ && _); discriminate.
  - apply extractTextFromPDF_throws in Hx as (msg & -> & Hmsg).
    cbn [fst message_of_or newError err_isError message_or_empty err_message
         default from_option id].
    intros H. injection H as ->.
    destruct Hmsg as [H | [H | [H | H]]]; discriminate H.
Qed.


(** ** The browser side *)

(** X22. The colour and the label of the match always name the same band:
    green and "Strong Match" from 70 on, yellow and "Moderate Match" from
    50 to below 70, red and "Weak Match" below 50. *)
Theorem X22_match_bands (percentage : Q) :
  ((70 <= percentage)%Q
   /\ getMatchColor percentage = "bg-green-500"
   /\ getMatchLabel percentage = "Strong Match")
  \/ ((50 <= percentage)%Q /\ (percentage < 70)%Q
      /\ getMatchColor percentage = "bg-yellow-500"
      /\ getMatchLabel percentage = "Moderate Match")
  \/ ((percentage < 50)%Q
      /\ getMatchColor percentage = "bg-red-500"
      /\ getMatchLabel percentage = "Weak Match").
Proof.
  unfold getMatchColor, getMatchLabel.
  destruct (Qle_bool 70 percentage) eqn:H70.
  - left. apply Qle_bool_iff in H70. auto.
  - assert (percentage < 70)%Q.
    { apply Qnot_le_lt. intros H. apply Qle_bool_iff in H. congruence. }
    destruct (Qle_bool 50 percentage) eqn:H50.
    + right; left. apply Qle_bool_iff in H50. auto.
    + right; right. split; [| auto].
      apply Qnot_le_lt. intros H'. apply Qle_bool_iff in H'. congruence.
Qed.

Lemma trim_nonempty_guard (s : string) :
  JS.trim s <> EmptyString -> JS.truthy (JS.trim s) = true.
Proof. destruct (JS.trim s); [contradiction | reflexivity]. Qed.

(** What the browser posts to the analysis route, when the route answers
    with a success status. *)
Lemma analyze_fetch_ok (w : Wording) (env : Env) (groq : Provider)
    (body : ResponseBody) (jobDescription : string) :
  response_ok (fst (analyze_fetch w env groq body jobDescription)) = true ->
  exists a,
    resp_body (fst (analyze_fetch w env groq body jobDescription)) = AnalysisBody a
    /\ (0 <= matchPercentage a)%Q /\ (matchPercentage a <= 100)%Q
    /\ length (snd (analyze_fetch w env groq body jobDescription)) = 1.
Proof.
  unfold analyze_fetch, analyze_POST.
  destruct body as [e | r | a]; try (destruct (_ || _); discriminate).
  destruct (_ || _); [discriminate |].
  destruct (_ || _); [discriminate |].
  destruct (analyzeResume w env groq (formatResumeForAnalysis r)
              (default EmptyString (Some jobDescription))) as [[a | e] sub]
    eqn:Hstage; [| discriminate].
  intros _. cbn [fst snd resp_body]. exists a.
  assert (Hr : fst (analyzeResume w env groq (formatResumeForAnalysis r)
                      (default EmptyString (Some jobDescription))) = Return a)
    by now rewrite Hstage.
  split; [reflexivity |].
  pose proof Hr as Hr'.
  apply analyzeResume_returns in Hr as (content & parsed & _ & Hs).
  apply AnalysisResultSchema_inl in Hs as (m & _ & _ & Hlo & Hhi & _).
  split; [exact Hlo |]. split; [exact Hhi |].
  assert (Hs : snd (analyzeResume w env groq (formatResumeForAnalysis r)
                      (default EmptyString (Some jobDescription))) = sub)
    by now rewrite Hstage.
  rewrite <- Hs. revert Hr'. unfold analyzeResume.
  destruct (truthy_opt _); cbn [negb fst snd]; [reflexivity | discriminate].
Qed.

Lemma parse_route_requests (w : Wording) (env : Env) (groq : Provider)
    (extractTextFromPDF : string -> Completion string)
    (resumeFile : option File) :
  length (snd (parse_resume_POST w env groq extractTextFromPDF resumeFile)) <= 1.
Proof.
  unfold parse_resume_POST.
  destruct resumeFile as [f |]; [| cbn; lia].
  destruct (negb _); [cbn; lia |].
  destruct (N.ltb _ _); [cbn; lia |].
  destruct (extractTextFromPDF _) as [text | e]; [| cbn; lia].
  destruct (_ || _); [cbn; lia |].
  assert (H : length (snd (parseResumeFromText w env groq text)) <= 1).
  { unfold parseResumeFromText. destruct (negb _); cbn; lia. }
  destruct (parseResumeFromText w env groq text) as [[r | e] sub];
    cbn [snd] in *; [destruct (_ && _) |]; exact H.
Qed.

Lemma parse_route_ok (w : Wording) (env : Env) (groq : Provider)
    (extractTextFromPDF : string -> Completion string)
    (resumeFile : option File) :
  response_ok (fst (parse_resume_POST w env groq extractTextFromPDF resumeFile))
    = true ->
  length (snd (parse_resume_POST w env groq extractTextFromPDF resumeFile)) = 1.
Proof.
  unfold parse_resume_POST.
  destruct resumeFile as [f |]; [| discriminate].
  destruct (negb _); [discriminate |].
  destruct (N.ltb _ _); [discriminate |].
  destruct (extractTextFromPDF _) as [text | e]; [| discriminate].
  destruct (_ || _); [discriminate |].
  destruct (parseResumeFromText w env groq text) as [[r | e] sub] eqn:Hstage;
    [| discriminate].
  destruct (_ && _); [discriminate |]. intros _. cbn [snd].
  assert (Hr : fst (parseResumeFromText w env groq text) = Return r)
    by now rewrite Hstage.
  assert (Hs : snd (parseResumeFromText w env groq text) = sub)
    by now rewrite Hstage.
  rewrite <- Hs. revert Hr. unfold parseResumeFromText.
  destruct (truthy_opt _); cbn [negb fst snd]; [reflexivity | discriminate].
Qed.

Lemma analyze_fetch_requests (w : Wording) (env : Env) (groq : Provider)
    (body : ResponseBody) (jobDescription : string) :
  length (snd (analyze_fetch w env groq body jobDescription)) <= 1.
Proof.
  unfold analyze_fetch, analyze_POST.
  destruct body as [e | r | a]; try (destruct (_ || _); cbn; lia).
  destruct (_ || _); [cbn; lia |].
  destruct (_ || _); [cbn; lia |].
  assert (H : length (snd (analyzeResume w env groq (formatResumeForAnalysis r)
                             (default EmptyString (Some jobDescription)))) <= 1).
  { unfold analyzeResume. destruct (negb _); cbn; lia. }
  destruct (analyzeResume _ _ _ _ _) as [[a | e] sub]; exact H.
Qed.

Lemma error_or_nonempty (body : ResponseBody) (c : ascii) (fallback : string) :
  error_or body (String c fallback) <> EmptyString.
Proof.
  unfold error_or, JS.string_or. destruct body as [[| c' e] | |]; discriminate.
Qed.

(** X23. Without a file, or with a job description that is blank,
    [handleSubmit] sets its own error and no request leaves the browser;
    and when the submit button is enabled, neither is the case. *)
Theorem X23_client_guards (w : Wording) (env : Env) (groq : Provider)
    (extractTextFromPDF : string -> Completion string)
    (loading : bool) (resumeFile : option File) (jobDescription : string) :
  (resumeFile = None ->
   handleSubmit w env groq extractTextFromPDF loading resumeFile jobDescription
   = (mkUiState None loading (Some "Please upload a resume file"), []))
  /\ (resumeFile <> None -> JS.trim jobDescription = EmptyString ->
      handleSubmit w env groq extractTextFromPDF loading resumeFile jobDescription
      = (mkUiState None loading (Some "Please provide a job description"), []))
  /\ (submit_disabled loading resumeFile jobDescription = false ->
      resumeFile <> None /\ JS.trim jobDescription <> EmptyString).
Proof.
  split; [| split].
  - intros ->. reflexivity.
  - intros Hf Hj. destruct resumeFile as [f |]; [| contradiction].
    unfold handleSubmit. now rewrite Hj.
  - unfold submit_disabled. intros H.
    apply orb_false_iff in H as [H Hj]. apply orb_false_iff in H as [_ Hf].
    split.
    + intros ->. discriminate Hf.
    + intros E. rewrite E in Hj. discriminate Hj.
Qed.

(** X24. When [handleSubmit] passes its two tests, it ends with [loading]
    off and with either an analysis and no error, or an error text that is
    not empty and no analysis.  An analysis that is shown has a percentage
    between 0 and 100 and took exactly two requests to the provider; a
    submission never takes more than two. *)
Theorem X24_submit_outcome (w : Wording) (env : Env) (groq : Provider)
    (extractTextFromPDF : string -> Completion string)
    (loading : bool) (resumeFile : File) (jobDescription : string) :
  JS.trim jobDescription <> EmptyString ->
  let result :=
    handleSubmit w env groq extractTextFromPDF loading (Some resumeFile)
      jobDescription in
  ui_loading (fst result) = false
  /\ length (snd result) <= 2
  /\ ((exists a,
         ui_analysis (fst result) = Some (AnalysisBody a)
         /\ ui_error (fst result) = None
         /\ (0 <= matchPercentage a)%Q /\ (matchPercentage a <= 100)%Q
         /\ length (snd result) = 2)
      \/ (ui_analysis (fst result) = None
          /\ exists msg, ui_error (fst result) = Some msg /\ msg <> EmptyString)).
Proof.
  intros Hj result. subst result. unfold handleSubmit.
  rewrite (trim_nonempty_guard _ Hj). cbn [negb].
  pose proof (parse_route_requests w env groq extractTextFromPDF (Some resumeFile))
    as Hn1.
  destruct (parse_resume_POST w env groq extractTextFromPDF (Some resumeFile))
    as [parseResponse submitted1] eqn:Hparse.
  cbn [snd] in Hn1.
  destruct (response_ok parseResponse) eqn:Hok1; cbn [negb].
  - pose proof (analyze_fetch_requests w env groq (resp_body parseResponse)
                  jobDescription) as Hn2.
    pose proof (analyze_fetch_ok w env groq (resp_body parseResponse)
                  jobDescription) as Hok.
    destruct (analyze_fetch w env groq (resp_body parseResponse) jobDescription)
      as [analyzeResponse submitted2].
    cbn [fst snd] in Hn2, Hok.
    assert (Hl1 : length submitted1 = 1).
    { pose proof (parse_route_ok w env groq extractTextFromPDF (Some resumeFile))
        as H.
      rewrite Hparse in H. exact (H Hok1). }
    destruct (response_ok analyzeResponse) eqn:Hok2; cbn [negb fst snd
      ui_loading ui_analysis ui_error].
    + destruct (Hok eq_refl) as (a & Hb & Hlo & Hhi & Hl2).
      rewrite length_app. split; [reflexivity |]. split; [lia |].
      left. exists a. rewrite Hb. repeat split; auto. lia.
    + rewrite length_app. split; [reflexivity |]. split; [lia |].
      right. split; [reflexivity |]. eexists. split; [reflexivity |].
      apply error_or_nonempty.
  - cbn [fst snd ui_loading ui_analysis ui_error].
    split; [reflexivity |]. split; [lia |].
    right. split; [reflexivity |]. eexists. split; [reflexivity |].
    apply error_or_nonempty.
Qed.


Lemma X23_client_guards_witness :
  let file := mkFile "application/pdf" 2048 "%PDF-1.4 ..." in
  handleSubmit sample_wording env_with_groq_key (answering "{}")
    (fun _ => Return "Jane Doe") false (Some file) "   "
  = (mkUiState None false (Some "Please provide a job description"), []).
Proof.
  intros file.
  destruct (X23_client_guards sample_wording env_with_groq_key (answering "{}")
              (fun _ => Return "Jane Doe") false (Some file) "   ")
    as (_ & H & _).
  apply H; [discriminate | reflexivity].
Defined.

Lemma X24_submit_outcome_witness :
  let file := mkFile "application/pdf" 2048 "%PDF-1.4 ..." in
  let groq : Provider := fun request =>
    if String.eqb (snd (nth 0 (req_messages request) (EmptyString, EmptyString)))
                  parser_systemPrompt
    then SdkReturns (Some (jtext "{'skills':['Go'],'experience':[],'education':[],'contact':''}"))
    else SdkReturns (Some (jtext "{'matchPercentage':80,'matchedSkills':['Go'],'missingSkills':[],'suggestions':[]}")) in
  let result :=
    handleSubmit sample_wording env_with_groq_key groq
      (fun _ => Return "Jane Doe, Go developer") false (Some file) "Go expert" in
  JS.trim "Go expert" <> EmptyString
  /\ fst result
     = mkUiState (Some (AnalysisBody (mkAnalysisResult 80 ["Go"] [] []))) false None
  /\ ui_loading (fst result) = false
  /\ length (snd result) <= 2
  /\ ((exists a,
         ui_analysis (fst result) = Some (AnalysisBody a)
         /\ ui_error (fst result) = None
         /\ (0 <= matchPercentage a)%Q /\ (matchPercentage a <= 100)%Q
         /\ length (snd result) = 2)
      \/ (ui_analysis (fst result) = None
          /\ exists msg, ui_error (fst result) = Some msg /\ msg <> EmptyString)).
Proof.
  intros file groq result.
  split; [discriminate |]. split; [reflexivity |].
  apply (X24_submit_outcome sample_wording env_with_groq_key groq
           (fun _ => Return "Jane Doe, Go developer") false file "Go expert").
  discriminate.
Defined.

(** X25. What the browser posts never fails the job description test of
    the analysis route: [handleSubmit] has made the same test before. *)
Theorem X25_route_job_test_never_fails (w : Wording) (env : Env)
    (groq : Provider) (body : ResponseBody) (jobDescription : string) :
  JS.trim jobDescription <> EmptyString ->
  fst (analyze_fetch w env groq body jobDescription)
  <> mkResponse 400 (ErrorBody "Job description is required").
Proof.
  intros Hj. destruct (trim_nonempty_truthy jobDescription Hj) as [Ht Hl].
  unfold analyze_fetch, analyze_POST. cbn [truthy_opt default from_option id].
  rewrite Ht, Hl. cbn [negb orb].
  destruct body as [e | r | a]; try discriminate.
  destruct (_ || _); [discriminate |].
  destruct (analyzeResume _ _ _ _ _) as [[a | e] sub]; discriminate.
Qed.

Lemma X25_route_job_test_never_fails_witness :
  JS.trim " Go expert " <> EmptyString
  /\ fst (analyze_fetch sample_wording env_with_groq_key (failing ThrownPrimitive)
            (ResumeBody (mkParsedResume ["Go"] [] [] "x")) " Go expert ")
     <> mkResponse 400 (ErrorBody "Job description is required").
Proof.
  split; [discriminate |].
  apply (X25_route_job_test_never_fails sample_wording env_with_groq_key
           (failing ThrownPrimitive)
           (ResumeBody (mkParsedResume ["Go"] [] [] "x")) " Go expert ").
  discriminate.
Defined.

(** X26. A file that is dropped replaces the held one only when its type
    is the accepted one, so the drop zone keeps the held file of the
    accepted type; a file chosen in the dialog is taken whatever its type,
    and submitting one that is not a PDF shows the route's "Only PDF files
    are supported" without any request to the provider. *)
Theorem X26_upload_type (w : Wording) (env : Env) (groq : Provider)
    (extractTextFromPDF : string -> Completion string)
    (loading : bool) (file : option File) (f : File) (jobDescription : string) :
  file_type f <> "application/pdf" ->
  JS.trim jobDescription <> EmptyString ->
  handleDrop "application/pdf" file (Some f) = file
  /\ (forall g, (forall h, file = Some h -> file_type h = "application/pdf") ->
                forall dropped,
                  handleDrop "application/pdf" file dropped = Some g ->
                  file_type g = "application/pdf")
  /\ handleFileSelect file (Some f) = Some f
  /\ handleSubmit w env groq extractTextFromPDF loading
       (handleFileSelect file (Some f)) jobDescription
     = (mkUiState None false (Some "Only PDF files are supported"), []).
Proof.
  intros Htype Hj. split; [| split; [| split]].
  - unfold handleDrop. now destruct (String.eqb_spec (file_type f) "application/pdf").
  - intros g Hinv dropped. unfold handleDrop.
    destruct dropped as [d |]; [| apply Hinv].
    destruct (String.eqb_spec (file_type d) "application/pdf") as [E | _];
      [| apply Hinv].
    intros H. now injection H as <-.
  - reflexivity.
  - cbn [handleFileSelect]. unfold handleSubmit.
    rewrite (trim_nonempty_guard _ Hj). cbn [negb].
    unfold parse_resume_POST.
    destruct (String.eqb_spec (file_type f) "application/pdf") as [E | _];
      [contradiction |].
    reflexivity.
Qed.

Lemma X26_upload_type_witness :
  let f := mkFile "image/png" 1024 "PNG..." in
  handleSubmit sample_wording env_with_groq_key (answering "{}")
    (fun _ => Return "Jane Doe") false (handleFileSelect None (Some f)) "Go expert"
  = (mkUiState None false (Some "Only PDF files are supported"), []).
Proof.
  intros f.
  apply (X26_upload_type sample_wording env_with_groq_key (answering "{}")
           (fun _ => Return "Jane Doe") false None f "Go expert");
    discriminate.
Defined.
